(** * Mega-Sena frequency analysis: scoring strategies, ranking, consensus

    A shallow embedding of [src/frequency_calculator.py], of the consensus
    builder, the rankings and the formatting of [src/output_formatter.py] and
    of [extract_numbers] of [src/data_loader.py], with the properties of the
    specification, and further properties of the code, stated and proved
    about it.

    Conventions of the embedding.
    - A draw record ([Dict[str, str]]) is a finite map from column names to
      cell texts; a text is the sequence of its characters, each a code
      point below 256.
    - A Python [dict] whose iteration order is observable (a [Counter], a
      [defaultdict], a score map) is an association list in insertion order
      with unique keys.
    - Python integers are [Z].
    - The scores of the Simple and of the Recent-only strategy are counts
      turned into floats; they are exact, and are real numbers [R] here.
    - The Weighted strategy is embedded twice.  The module [Binary64] is the
      code as it runs: IEEE-754 binary64 arithmetic, with [math.exp] a
      parameter that returns a float or raises.  The module
      [WeightedFrequencyStrategy] is the same code read in exact arithmetic:
      weights and sums are real numbers and [math.exp] is the real
      exponential, so that nothing rounds, overflows or raises.  A statement
      about the latter says so.
    - A raised exception is a result [Raise e]. *)

From Stdlib Require Import ZArith List Ascii String Reals Lra Lia Floats.
From Stdlib Require Import Permutation Sorted DecimalString.
From Stdlib Require Uint63.
From stdpp Require Import base option list sorting gmap strings.

(** ** Python values *)

Module Py.

Inductive exn : Set :=
| ValueError
| OverflowError
| ZeroDivisionError.

Inductive result (A : Type) : Type :=
| Ok (a : A)
| Raise (e : exn).
Global Arguments Ok {A} a.
Global Arguments Raise {A} e.

(** Sequencing: the first exception raised ends the computation. *)
Global Instance result_bind : MBind result := λ A B k r,
  match r with
  | Ok a => k a
  | Raise e => Raise e
  end.

(** [len(l)] *)
Definition len {A : Type} (l : list A) : Z := Z.of_nat (length l).

(** [l[start:]]: a negative [start] counts from the end, and both ends are
    clipped to the list. *)
Definition slice_from {A : Type} (start : Z) (l : list A) : list A :=
  if (start <? 0)%Z
  then drop (Z.to_nat (Z.max (len l + start) 0)) l
  else drop (Z.to_nat start) l.

(** [l[:stop]] *)
Definition slice_to {A : Type} (stop : Z) (l : list A) : list A :=
  if (stop <? 0)%Z
  then take (Z.to_nat (Z.max (len l + stop) 0)) l
  else take (Z.to_nat stop) l.

(** [enumerate(l)] *)
Fixpoint enumerate_from {A : Type} (i : Z) (l : list A) : list (Z * A) :=
  match l with
  | [] => []
  | x :: l' => (i, x) :: enumerate_from (i + 1) l'
  end.

Definition enumerate {A : Type} (l : list A) : list (Z * A) :=
  enumerate_from 0 l.

(** *** [int(s)] on a string

    Base-10 integer literals as [int] reads them: optional surrounding
    whitespace, an optional sign, then digits in which single underscores
    may separate digits.  [None] stands for [ValueError].

    A character of a string is its code point, below 256.  Among these
    [int] takes as whitespace the six characters that C's [isspace] accepts
    (tab to carriage return, and the space) and the two other characters
    that are whitespace in Unicode, U+0085 and U+00A0; the separators
    U+001C to U+001F are not among them.  The only decimal digits below 256
    are ['0'] to ['9']. *)

Definition is_space (c : ascii) : bool :=
  let n := nat_of_ascii c in
  ((9 <=? n) && (n <=? 13)) || (n =? 32) || (n =? 133) || (n =? 160).

Definition digit_of (c : ascii) : option Z :=
  let n := nat_of_ascii c in
  if (48 <=? n) && (n <=? 57) then Some (Z.of_nat (n - 48)) else None.

Fixpoint drop_spaces (s : list ascii) : list ascii :=
  match s with
  | c :: s' => if is_space c then drop_spaces s' else s
  | [] => []
  end.

Definition strip (s : list ascii) : list ascii :=
  rev (drop_spaces (rev (drop_spaces s))).

(** [after_digit] tells whether the previous character was a digit: only
    then may an underscore follow or the literal end. *)
Fixpoint digits (acc : Z) (after_digit : bool) (s : list ascii) : option Z :=
  match s with
  | [] => if after_digit then Some acc else None
  | c :: s' =>
      match digit_of c with
      | Some d => digits (10 * acc + d) true s'
      | None =>
          if Ascii.eqb c "_" && after_digit then digits acc false s' else None
      end
  end.

Definition int (s : string) : option Z :=
  match strip (list_ascii_of_string s) with
  | "+"%char :: body => digits 0 false body
  | "-"%char :: body => Z.opp <$> digits 0 false body
  | body => digits 0 false body
  end.

(** [s.split(sep)] for a one-character separator: never an empty list. *)
Fixpoint split (sep : ascii) (s : string) : list string :=
  match s with
  | EmptyString => [EmptyString]
  | String c s' =>
      if Ascii.eqb c sep then EmptyString :: split sep s'
      else match split sep s' with
           | piece :: pieces => String c piece :: pieces
           | [] => [String c EmptyString]
           end
  end.

(** Truth value of a string: [if s:] *)
Definition truthy (s : string) : bool :=
  match s with
  | EmptyString => false
  | String _ _ => true
  end.

(** *** Dictionaries in insertion order *)

Section Dict.
Context {V : Type}.

Fixpoint get (k : Z) (d : list (Z * V)) : option V :=
  match d with
  | [] => None
  | (k', v) :: d' => if (k =? k')%Z then Some v else get k d'
  end.

(** [d[k] = v]: an existing key keeps its place, a new key goes last. *)
Fixpoint set (k : Z) (v : V) (d : list (Z * V)) : list (Z * V) :=
  match d with
  | [] => [(k, v)]
  | (k', v') :: d' =>
      if (k =? k')%Z then (k', v) :: d' else (k', v') :: set k v d'
  end.

(** [d[k] += v] on a [Counter] or a [defaultdict] whose missing entries
    read as [zero]. *)
Definition add_to (zero : V) (plus : V → V → V)
    (k : Z) (v : V) (d : list (Z * V)) : list (Z * V) :=
  set k (plus (default zero (get k d)) v) d.
End Dict.

(** *** [sorted(l, key=key, reverse=reverse)]

    A stable sort that uses only [<] on keys; with [reverse] every
    comparison is reversed, so equal keys still keep their input order. *)

Section Sorted.
Context {A K : Type} (lt : K → K → bool) (key : A → K) (reverse : bool).

(** [x] stood before every element of [l] in the input. *)
Definition moves_past (x y : A) : bool :=
  if reverse then lt (key x) (key y) else lt (key y) (key x).

Fixpoint insert (x : A) (l : list A) : list A :=
  match l with
  | [] => [x]
  | y :: l' => if moves_past x y then y :: insert x l' else x :: l
  end.

Definition sorted (l : list A) : list A := foldr insert [] l.
End Sorted.

(** *** Dictionaries with string keys, in insertion order *)

Section StrDict.
Context {V : Type}.

Fixpoint getitem (key : string) (d : list (string * V)) : option V :=
  match d with
  | [] => None
  | (key', v) :: d' => if String.eqb key key' then Some v else getitem key d'
  end.

(** [d[key] = v] *)
Fixpoint setitem (key : string) (v : V) (d : list (string * V))
    : list (string * V) :=
  match d with
  | [] => [(key, v)]
  | (key', v') :: d' =>
      if String.eqb key key' then (key', v) :: d'
      else (key', v') :: setitem key v d'
  end.
End StrDict.

(** *** [f'{n:02d}']

    The decimal digits of [abs(n)], after the sign if there is one, filled
    with zeros on the left up to two characters in all. *)

Definition str_of_nat (n : N) : string :=
  NilZero.string_of_uint (N.to_uint n).

Definition format_02d (n : Z) : string :=
  let body := str_of_nat (Z.abs_N n) in
  if (n <? 0)%Z then String "-" body
  else if (String.length body <? 2)%nat then String "0" body
  else body.

(** [sum(l)] of floats *)
Definition sum (l : list R) : R := fold_left Rplus l 0%R.

(** [float(n)] of an integer *)
Definition float (n : Z) : R := IZR n.

(** [a < b] on floats *)
Definition Rltb (a b : R) : bool := if Rlt_dec a b then true else false.

End Py.

Abbreviation ValueError := Py.ValueError.
Abbreviation OverflowError := Py.OverflowError.
Abbreviation ZeroDivisionError := Py.ZeroDivisionError.
Abbreviation Ok := Py.Ok.
Abbreviation Raise := Py.Raise.

(** ** Draw records and score maps *)

Abbreviation Row := (gmap string string).
Abbreviation Counter := (list (Z * Z)).
Abbreviation ScoreMap := (list (Z * R)).

(** [int(row[col])] inside [try: ... except (ValueError, KeyError)]: [None]
    when the column is missing or its text is no integer. *)
Definition ball (row : Row) (col : string) : option Z :=
  row !! col ≫= Py.int.

(** [{num: float(count) for num, count in frequency_counter.items()}] *)
Definition to_scores (frequency_counter : Counter) : ScoreMap :=
  map (λ '(num, count), (num, Py.float count)) frequency_counter.

(** ** [MegaSenaDataLoader] *)

Module MegaSenaDataLoader.

Definition BALL_COLUMNS : list string :=
  ["bola 1"; "bola 2"; "bola 3"; "bola 4"; "bola 5"; "bola 6"].

(** The numbers of a draw in column order, unreadable cells left out. *)
Definition extract_numbers (draw : Row) : list Z :=
  fold_left
    (λ numbers col,
       match ball draw col with
       | Some number => numbers ++ [number]
       | None => numbers
       end)
    BALL_COLUMNS [].

End MegaSenaDataLoader.

(** ** [SimpleFrequencyStrategy] *)

Module SimpleFrequencyStrategy.

Definition BALL_COLUMNS : list string :=
  ["bola 1"; "bola 2"; "bola 3"; "bola 4"; "bola 5"; "bola 6"].

Definition count_row (frequency_counter : Counter) (row : Row) : Counter :=
  fold_left
    (λ counter col,
       match ball row col with
       | Some number => Py.add_to 0%Z Z.add number 1%Z counter
       | None => counter
       end)
    BALL_COLUMNS frequency_counter.

Definition calculate (draws : list Row) : ScoreMap :=
  to_scores (fold_left count_row draws []).

End SimpleFrequencyStrategy.

(** ** [WeightedFrequencyStrategy] in exact arithmetic

    The weights and the sums of the strategy over the real numbers.  Every
    operation is exact and total here; what the floating-point code does
    instead (rounding, [OverflowError], [ZeroDivisionError], NaN) is in the
    module [Binary64] below. *)

Module WeightedFrequencyStrategy.

Record t : Type := { weight_mode : string; decay_factor : R }.

Definition BALL_COLUMNS : list string :=
  ["bola 1"; "bola 2"; "bola 3"; "bola 4"; "bola 5"; "bola 6"].

Definition _calculate_weight (self : t) (position : R) : R :=
  if String.eqb (weight_mode self) "recent_more" then
    (exp (decay_factor self * position) / exp (decay_factor self))%R
  else if String.eqb (weight_mode self) "recent_linear" then
    (0.25 + 0.75 * position)%R
  else
    (exp (decay_factor self * (1 - position)) / exp (decay_factor self))%R.

Definition add_row (weight : R) (weighted_scores : ScoreMap) (row : Row)
    : ScoreMap :=
  fold_left
    (λ scores col,
       match ball row col with
       | Some number => Py.add_to 0%R Rplus number weight scores
       | None => scores
       end)
    BALL_COLUMNS weighted_scores.

(** [position = draw_index / (total_draws - 1) if total_draws > 1 else 0] *)
Definition position (total_draws draw_index : Z) : R :=
  if (1 <? total_draws)%Z
  then (IZR draw_index / IZR (total_draws - 1))%R
  else 0%R.

Definition calculate (self : t) (draws : list Row) : ScoreMap :=
  let total_draws := Py.len draws in
  fold_left
    (λ weighted_scores '(draw_index, row),
       let weight := _calculate_weight self (position total_draws draw_index) in
       add_row weight weighted_scores row)
    (Py.enumerate draws) [].

End WeightedFrequencyStrategy.

(** ** [RecentOnlyStrategy] *)

Module RecentOnlyStrategy.

Record t : Type := { n_items : Z; mode : string }.

Definition BALL_COLUMNS : list string :=
  ["bola 1"; "bola 2"; "bola 3"; "bola 4"; "bola 5"; "bola 6"].

(** [int(date.split('/')[-1])], outside any [try]. *)
Definition year (date : string) : Py.result Z :=
  match Py.int (List.last (Py.split "/" date) EmptyString) with
  | Some y => Ok y
  | None => Raise ValueError
  end.

(** The loop that keeps the rows of the last years; a row without a date
    is left out, a date without a readable year raises. *)
Fixpoint rows_since (cutoff_year : Z) (draws : list Row)
    : Py.result (list Row) :=
  match draws with
  | [] => Ok []
  | row :: rest =>
      let date := default EmptyString (row !! "Data") in
      if Py.truthy date then
        y ← year date;
        kept ← rows_since cutoff_year rest;
        Ok (if (cutoff_year <=? y)%Z then row :: kept else kept)
      else rows_since cutoff_year rest
  end.

Definition recent_draws (self : t) (draws : list Row)
    : Py.result (list Row) :=
  if String.eqb (mode self) "draws" then
    Ok (if (n_items self <=? Py.len draws)%Z
        then Py.slice_from (- n_items self) draws
        else draws)
  else
    match draws with
    | [] => Ok draws
    | _ :: _ =>
        let most_recent_date :=
          default EmptyString (List.last draws ∅ !! "Data") in
        if Py.truthy most_recent_date then
          most_recent_year ← year most_recent_date;
          rows_since (most_recent_year - n_items self + 1) draws
        else Ok draws
    end.

Definition count_row (frequency_counter : Counter) (row : Row) : Counter :=
  fold_left
    (λ counter col,
       match ball row col with
       | Some number => Py.add_to 0%Z Z.add number 1%Z counter
       | None => counter
       end)
    BALL_COLUMNS frequency_counter.

Definition calculate (self : t) (draws : list Row) : Py.result ScoreMap :=
  rows ← recent_draws self draws;
  Ok (to_scores (fold_left count_row rows [])).

End RecentOnlyStrategy.

(** ** [FrequencyCalculator] *)

Module FrequencyCalculator.

(** [sorted(frequencies.items(), key=lambda x: x[1], reverse=True)[:n]] *)
Definition get_top_numbers (frequencies : ScoreMap) (n : Z) : list (Z * R) :=
  Py.slice_to n (Py.sorted Py.Rltb snd true frequencies).

(** [FrequencyStrategy]: the calculator knows a strategy only through its
    methods, of which it calls [calculate], which returns a score map or
    raises.  [S] is the type of the strategy objects, [V] that of the
    scores. *)
Class FrequencyStrategy (S V : Type) : Type :=
  calculate : S → list Row → Py.result (list (Z * V)).

Section Calculator.
Context {S V : Type} `{!FrequencyStrategy S V}.

(** [self.strategies[key] = strategy] *)
Definition add_strategy (strategies : list (string * S))
    (key : string) (s : S) : list (string * S) :=
  Py.setitem key s strategies.

(** The loop of [calculate_all], from the results gathered so far. *)
Fixpoint calculate_all_from (results : list (string * list (Z * V)))
    (strategies : list (string * S)) (draws : list Row)
    : Py.result (list (string * list (Z * V))) :=
  match strategies with
  | [] => Ok results
  | (key, s) :: rest =>
      scores ← calculate s draws;
      calculate_all_from (Py.setitem key scores results) rest draws
  end.

Definition calculate_all (strategies : list (string * S))
    (draws : list Row) : Py.result (list (string * list (Z * V))) :=
  calculate_all_from [] strategies draws.
End Calculator.

End FrequencyCalculator.

(** ** [ResultFormatter]

    Only what [display_consensus_analysis] returns is modelled; the text it
    prints on the way is left out. *)

Module ResultFormatter.

(** [(a, x) < (b, y)] on tuples: the first components that differ decide. *)
Definition pair_ltb (p q : Z * R) : bool :=
  if (p.1 =? q.1)%Z then Py.Rltb p.2 q.2 else (p.1 <? q.1)%Z.

(** [simple_freq.get(num, 0) if simple_freq else 0]: [None] and the
    empty map are both false. *)
Definition reference_score (simple_freq : option ScoreMap) (num : Z) : R :=
  match simple_freq with
  | Some (entry :: entries) => default 0%R (Py.get num (entry :: entries))
  | Some [] | None => 0%R
  end.

Section Consensus.
(** The order in which a [for] loop visits a [set] of integers is left to
    the interpreter. *)
Variable set_iter : gset Z → list Z.

Definition display_consensus_analysis
    (all_strategies : list (string * list Z))
    (simple_freq : option ScoreMap) : list Z :=
  let strategy_sets : list (string * gset Z) :=
    map (λ '(key, nums), (key, list_to_set nums)) all_strategies in
  let all_numbers : gset Z := ⋃ (map snd strategy_sets) in
  let number_counts : list (Z * Z) :=
    fold_left
      (λ counts num,
         let count :=
           Py.len (filter (λ s : gset Z, num ∈ s) (map snd strategy_sets)) in
         Py.set num count counts)
      (set_iter all_numbers) [] in
  let consensus_ranking :=
    Py.sorted pair_ltb
      (λ x : Z * Z, (x.2, reference_score simple_freq x.1))
      true number_counts in
  let final_bet :=
    Py.sorted Z.ltb (λ num : Z, num) false
      (map fst (Py.slice_to 8 consensus_ranking)) in
  final_bet.
End Consensus.

(** The three lists that [display_pattern_analysis] gathers before it
    prints their statistics: for each draw with six readable cells, the sum
    of its numbers, how many are even and odd, how many are low (up to 30)
    and high. *)
Definition pattern_lists (draws : list Row)
    : list Z * list (Z * Z) * list (Z * Z) :=
  fold_left
    (λ '(sum_range, even_odd, low_high) row,
       let numbers := MegaSenaDataLoader.extract_numbers row in
       if (Py.len numbers =? 6)%Z then
         let total := fold_left Z.add numbers 0%Z in
         let even := Py.len (filter (λ n, (n mod 2 = 0)%Z) numbers) in
         let odd := (6 - even)%Z in
         let low := Py.len (filter (λ n, (n ≤ 30)%Z) numbers) in
         let high := (6 - low)%Z in
         (sum_range ++ [total], even_odd ++ [(even, odd)],
          low_high ++ [(low, high)])
       else (sum_range, even_odd, low_high))
    draws ([], [], []).

(** [' - '.join([f'{n:02d}' for n in sorted(numbers)])] *)
Definition format_numbers_list (numbers : list Z) : string :=
  String.concat " - "
    (map Py.format_02d (Py.sorted Z.ltb (λ num : Z, num) false numbers)).

(** [(-count, num) < (-count', num')] *)
Definition rank_key_ltb (p q : R * Z) : bool :=
  if Req_dec_T p.1 q.1 then (p.2 <? q.2)%Z else Py.Rltb p.1 q.1.

(** The table that [display_all_numbers_ranking] prints row by row, the
    same that [FileManager.save_complete_analysis] writes: the numbers 1 to
    60 with their score, 0 when the map has none, sorted by
    [(-score, number)]. *)
Definition all_numbers_list (frequencies : ScoreMap) : list (Z * R) :=
  Py.sorted rank_key_ltb (λ x : Z * R, ((- x.2)%R, x.1)) false
    (map (λ num, (num, default 0%R (Py.get num frequencies))) (seqZ 1 60)).

End ResultFormatter.

(** ** [WeightedFrequencyStrategy] over binary64 floats

    The arithmetic is the kernel's IEEE-754 arithmetic; [math.exp] is a
    parameter, and like [/] it may raise. *)

Module Binary64.

Record t : Type := { weight_mode : string; decay_factor : float }.

Definition BALL_COLUMNS : list string :=
  ["bola 1"; "bola 2"; "bola 3"; "bola 4"; "bola 5"; "bola 6"].

(** [a / b] on floats *)
Definition truediv (a b : float) : Py.result float :=
  if PrimFloat.eqb b 0%float then Raise ZeroDivisionError
  else Ok (a / b)%float.

(** An integer from 0 to [2^53] as a float: the conversion is exact. *)
Definition of_int (n : Z) : float := PrimFloat.of_uint63 (Uint63.of_Z n).

(** [position = draw_index / (total_draws - 1) if total_draws > 1 else 0].
    The quotient of two integers is the quotient of their floats, rounded
    once, as long as both are at most [2^53]; a list has fewer items than
    that. *)
Definition position (total_draws draw_index : Z) : float :=
  if (1 <? total_draws)%Z
  then (of_int draw_index / of_int (total_draws - 1))%float
  else 0%float.

(** The loop over the columns; a missing entry of the [defaultdict(float)]
    reads as [0.0]. *)
Definition add_row (weight : float) (weighted_scores : list (Z * float))
    (row : Row) : list (Z * float) :=
  fold_left
    (λ scores col,
       match ball row col with
       | Some number => Py.add_to 0%float PrimFloat.add number weight scores
       | None => scores
       end)
    BALL_COLUMNS weighted_scores.

Section Weight.
Variable math_exp : float → Py.result float.

Definition _calculate_weight (self : t) (position : float)
    : Py.result float :=
  if String.eqb (weight_mode self) "recent_more" then
    a ← math_exp (decay_factor self * position)%float;
    b ← math_exp (decay_factor self);
    truediv a b
  else if String.eqb (weight_mode self) "recent_linear" then
    Ok (0.25 + 0.75 * position)%float
  else
    a ← math_exp (decay_factor self * (1 - position))%float;
    b ← math_exp (decay_factor self);
    truediv a b.

(** The loop over the draws, from the scores gathered so far: the weight of
    a draw is computed, and may raise, before the cells of the draw are
    read. *)
Fixpoint calculate_from (self : t) (total_draws : Z)
    (weighted_scores : list (Z * float)) (rows : list (Z * Row))
    : Py.result (list (Z * float)) :=
  match rows with
  | [] => Ok weighted_scores
  | (draw_index, row) :: rest =>
      weight ← _calculate_weight self (position total_draws draw_index);
      calculate_from self total_draws (add_row weight weighted_scores row) rest
  end.

Definition calculate (self : t) (draws : list Row)
    : Py.result (list (Z * float)) :=
  calculate_from self (Py.len draws) [] (Py.enumerate draws).
End Weight.

End Binary64.

(** ** The strategies as [FrequencyStrategy] objects *)

(** The strategies that count: their scores are exact. *)
Inductive counting_strategy : Type :=
| Simple
| RecentOnly (self : RecentOnlyStrategy.t).

#[global] Instance counting_strategy_calculate
    : FrequencyCalculator.FrequencyStrategy counting_strategy R :=
  λ s draws,
    match s with
    | Simple => Ok (SimpleFrequencyStrategy.calculate draws)
    | RecentOnly self => RecentOnlyStrategy.calculate self draws
    end.

(** The Weighted strategy, for a given [math.exp]. *)
Definition weighted_strategy_calculate (math_exp : float → Py.result float)
    : FrequencyCalculator.FrequencyStrategy Binary64.t float :=
  Binary64.calculate math_exp.

(** ** Notions the statements use *)

(** The ball cells of a draw sequence that [int] reads, and those it does
    not (missing column or unreadable text). *)
Definition parsed_in_row (row : Row) : Z :=
  Py.len (filter (λ col, is_Some (ball row col))
            SimpleFrequencyStrategy.BALL_COLUMNS).

Definition malformed_in_row (row : Row) : Z :=
  Py.len (filter (λ col, ball row col = None)
            SimpleFrequencyStrategy.BALL_COLUMNS).

Definition parsed_cells (draws : list Row) : Z :=
  foldr (λ row total, (parsed_in_row row + total)%Z) 0%Z draws.

Definition malformed_cells (draws : list Row) : Z :=
  foldr (λ row total, (malformed_in_row row + total)%Z) 0%Z draws.







(** Equality of scores is decided classically, as the order on [R] is. *)
#[global] Instance R_eq_dec : EqDecision R := Req_dec_T.

(** The sum of the counts of a [Counter]. *)
Definition total (counter : Counter) : Z :=
  foldr (λ entry acc, (entry.2 + acc)%Z) 0%Z counter.

(** The draws of the test fixture [sample_draws]. *)
Definition draw (concurso data b1 b2 b3 b4 b5 b6 : string) : Row :=
  list_to_map
    [("Concurso", concurso); ("Data", data);
     ("bola 1", b1); ("bola 2", b2); ("bola 3", b3);
     ("bola 4", b4); ("bola 5", b5); ("bola 6", b6)].

Definition sample_draws : list Row :=
  [draw "1" "11/03/1996" "10" "20" "30" "40" "50" "60";
   draw "2" "18/03/1996" "5" "10" "15" "20" "25" "30";
   draw "3" "25/03/1996" "10" "20" "30" "35" "45" "55"].

(** A sequence whose last record carries a date text without a year. *)
Definition undated_draws : list Row :=
  [draw "1" "11/03/1996" "10" "20" "30" "40" "50" "60";
   draw "2" "sem data" "5" "10" "15" "20" "25" "30"].

(** A sequence whose last record has no date column at all. *)
Definition dateless_draws : list Row :=
  [draw "1" "11/03/1996" "10" "20" "30" "40" "50" "60";
   delete "Data" (draw "2" "18/03/1996" "5" "10" "15" "20" "25" "30")].

(** The numbers drawn in a sequence, draw after draw. *)
Definition drawn (draws : list Row) : list Z :=
  concat (map MegaSenaDataLoader.extract_numbers draws).

(** How many times [k] stands in a list of numbers. *)
Definition occurrences (k : Z) (numbers : list Z) : Z :=
  Py.len (filter (λ n, n = k) numbers).

(** The keys of a dictionary after a new access to [k]. *)
Definition add_key (keys : list Z) (k : Z) : list Z :=
  if decide (k ∈ keys) then keys else keys ++ [k].

(** The distinct numbers of a list in the order of their first appearance. *)
Definition first_seen (numbers : list Z) : list Z :=
  fold_left add_key numbers [].

(** The sum of the weights of the draws, from index [i] on, each as many
    times as the draw shows [k]. *)
Fixpoint weighted_occurrences (weight_at : Z → R) (i : Z)
    (draws : list Row) (k : Z) : R :=
  match draws with
  | [] => 0%R
  | row :: rest =>
      (weight_at i
       * IZR (occurrences k (MegaSenaDataLoader.extract_numbers row))
       + weighted_occurrences weight_at (i + 1) rest k)%R
  end.

(** The sum of the weights of the draws, from index [i] on, each as many
    times as the draw has readable cells. *)
Fixpoint weighted_cells (weight_at : Z → R) (i : Z) (draws : list Row) : R :=
  match draws with
  | [] => 0%R
  | row :: rest =>
      (weight_at i * IZR (parsed_in_row row)
       + weighted_cells weight_at (i + 1) rest)%R
  end.

(** The additions that the loop of the Weighted strategy makes to the score
    of [k]: the weight of a draw once for each readable cell of the draw
    that shows [k], draw after draw. *)
Definition additions (k : Z) (weighted_draws : list (float * Row))
    : list float :=
  flat_map
    (λ '(weight, row),
       replicate
         (Z.to_nat (occurrences k (MegaSenaDataLoader.extract_numbers row)))
         weight)
    weighted_draws.

(** A score after the additions [adds], [None] standing for no entry: the
    first addition is made to [0.0]. *)
Definition added (adds : list float) (score : option float) : option float :=
  match adds with
  | [] => score
  | _ :: _ => Some (fold_left PrimFloat.add adds (default 0%float score))
  end.


(** The date text of a record, [''] when it has none. *)
Definition date_of (row : Row) : string :=
  default EmptyString (row !! "Data").

(** A record without a date, or with a date whose year reads. *)
Definition date_reads (row : Row) : bool :=
  match RecentOnlyStrategy.year (date_of row) with
  | Py.Ok _ => true
  | Py.Raise _ => negb (Py.truthy (date_of row))
  end.

(** A dated record of year [cutoff_year] or later. *)
Definition dated_since (cutoff_year : Z) (row : Row) : bool :=
  Py.truthy (date_of row)
  && match RecentOnlyStrategy.year (date_of row) with
     | Py.Ok y => (cutoff_year <=? y)%Z
     | Py.Raise _ => false
     end.

(** A record that is not dated after year [y]. *)
Definition dated_until (y : Z) (row : Row) : bool :=
  match RecentOnlyStrategy.year (date_of row) with
  | Py.Ok y' => (y' <=? y)%Z
  | Py.Raise _ => true
  end.

(** How many of the strategies recommend [num]. *)
Definition agreement (all_strategies : list (string * list Z)) (num : Z) : Z :=
  Py.len (filter (λ entry : string * list Z, num ∈ entry.2) all_strategies).

(** The numbers that at least one strategy recommends. *)
Definition recommended (all_strategies : list (string * list Z)) : gset Z :=
  ⋃ (map (λ entry : string * list Z, list_to_set entry.2) all_strategies).

(** Nine recommendations in which the number [k] is picked [k] times. *)
Definition nested_strategies : list (string * list Z) :=
  [("s1", [1; 2; 3; 4; 5; 6; 7; 8; 9]); ("s2", [2; 3; 4; 5; 6; 7; 8; 9]);
   ("s3", [3; 4; 5; 6; 7; 8; 9]); ("s4", [4; 5; 6; 7; 8; 9]);
   ("s5", [5; 6; 7; 8; 9]); ("s6", [6; 7; 8; 9]); ("s7", [7; 8; 9]);
   ("s8", [8; 9]); ("s9", [9])]%Z.

(** ** Dictionaries *)

Section DictFacts.
Context {V : Type}.
Implicit Types (d : list (Z * V)) (k : Z) (v : V).


(** Writing a key that is absent appends it. *)
Lemma set_fresh k v d : k ∉ map fst d → Py.set k v d = d ++ [(k, v)].
Proof.
  induction d as [|[k' v'] d IH]; simpl; [done|].
  rewrite not_elem_of_cons. intros [Hne Hnin].
  destruct (Z.eqb_spec k k') as [->|_]; [done|]. by rewrite IH.
Qed.



End DictFacts.

(** ** The embedding on the repository's test fixture *)

Example int_reads :
  map Py.int ["10"; " 42 "; "-7"; "1_000"; "007"; ""; "abc"; "10.0"; "1 2"]
  = [Some 10; Some 42; Some (-7); Some 1000; Some 7; None; None; None; None]%Z.
Proof. vm_compute. reflexivity. Qed.

(** A tab and U+00A0 are whitespace to [int]; the separator U+001C is not. *)
Example int_whitespace :
  map Py.int
    [String (ascii_of_nat 9) "5"; String (ascii_of_nat 160) "5";
     String (ascii_of_nat 28) "5"]
  = [Some 5; Some 5; None]%Z.
Proof. vm_compute. reflexivity. Qed.

Example year_of_date : RecentOnlyStrategy.year "25/03/1996" = Ok 1996%Z.
Proof. vm_compute. reflexivity. Qed.

(** [test_calculate]: 10, 20 and 30 appear in all three draws, 5 in one. *)
Example simple_counts_sample :
  fold_left SimpleFrequencyStrategy.count_row sample_draws []
  = [(10, 3); (20, 3); (30, 3); (40, 1); (50, 1); (60, 1);
     (5, 1); (15, 1); (25, 1); (35, 1); (45, 1); (55, 1)]%Z.
Proof. vm_compute. reflexivity. Qed.

(** [test_calculate_recent_draws]: the last two draws only. *)
Example recent_two_draws_sample :
  RecentOnlyStrategy.calculate
    {| RecentOnlyStrategy.n_items := 2;
       RecentOnlyStrategy.mode := "draws" |} sample_draws
  = Ok (to_scores
          [(5, 1); (10, 2); (15, 1); (20, 2); (25, 1); (30, 2);
           (35, 1); (45, 1); (55, 1)]%Z).
Proof.
  unfold RecentOnlyStrategy.calculate.
  assert (RecentOnlyStrategy.recent_draws
            {| RecentOnlyStrategy.n_items := 2;
               RecentOnlyStrategy.mode := "draws" |} sample_draws
          = Ok (drop 1 sample_draws)) as -> by (vm_compute; reflexivity).
  assert (fold_left RecentOnlyStrategy.count_row (drop 1 sample_draws) []
          = [(5, 1); (10, 2); (15, 1); (20, 2); (25, 1); (30, 2);
             (35, 1); (45, 1); (55, 1)]%Z) as Hcounts
    by (vm_compute; reflexivity).
  unfold mbind, Py.result_bind. by rewrite Hcounts.
Qed.

(** [test_calculate_recent_years]: all the draws of the fixture are of 1996. *)
Example recent_year_sample :
  RecentOnlyStrategy.recent_draws
    {| RecentOnlyStrategy.n_items := 1;
       RecentOnlyStrategy.mode := "years" |} sample_draws
  = Ok sample_draws.
Proof. vm_compute. reflexivity. Qed.

(** ** The counting loop *)

Lemma total_cons entry (counter : Counter) :
  total (entry :: counter) = (entry.2 + total counter)%Z.
Proof. reflexivity. Qed.

Lemma total_add_to number amount (counter : Counter) :
  total (Py.add_to 0%Z Z.add number amount counter)
  = (total counter + amount)%Z.
Proof.
  unfold Py.add_to. induction counter as [|[k c] counter IH].
  - simpl. lia.
  - cbn [Py.set Py.get]. destruct (Z.eqb_spec number k) as [->|Hne].
    + simpl. lia.
    + rewrite !total_cons, IH. simpl. lia.
Qed.

(** One pass over any list of columns adds one per cell that reads. *)
Lemma total_count_columns row (cols : list string) (counter : Counter) :
  total
    (fold_left
       (λ counter col,
          match ball row col with
          | Some number => Py.add_to 0%Z Z.add number 1%Z counter
          | None => counter
          end)
       cols counter)
  = (total counter + Py.len (filter (λ col, is_Some (ball row col)) cols))%Z.
Proof.
  revert counter. unfold Py.len.
  induction cols as [|col cols IH]; intros counter; simpl.
  - lia.
  - rewrite IH. rewrite filter_cons.
    destruct (ball row col) as [number|] eqn:Hball.
    + rewrite total_add_to.
      rewrite decide_True by by eexists. simpl length. lia.
    + rewrite decide_False by by intros [? ?]. lia.
Qed.

Lemma total_count_row counter row :
  total (SimpleFrequencyStrategy.count_row counter row)
  = (total counter + parsed_in_row row)%Z.
Proof. apply total_count_columns. Qed.

Lemma total_count_draws draws counter :
  total (fold_left SimpleFrequencyStrategy.count_row draws counter)
  = (total counter + parsed_cells draws)%Z.
Proof.
  revert counter. induction draws as [|row draws IH]; intros counter; simpl.
  - lia.
  - rewrite IH, total_count_row. lia.
Qed.

(** A cell either reads or it does not. *)
Lemma parsed_or_malformed (cols : list string) row :
  (Py.len (filter (λ col, is_Some (ball row col)) cols)
   + Py.len (filter (λ col, ball row col = None) cols))%Z
  = Py.len cols.
Proof.
  unfold Py.len. induction cols as [|col cols IH]; simpl; [done|].
  rewrite !filter_cons. destruct (ball row col) as [n|] eqn:Hball.
  - rewrite decide_True by by eexists. rewrite decide_False by done.
    simpl length. lia.
  - rewrite decide_False by by intros [? ?]. rewrite decide_True by done.
    simpl length. lia.
Qed.

Lemma parsed_plus_malformed draws :
  (parsed_cells draws + malformed_cells draws)%Z = (6 * Py.len draws)%Z.
Proof.
  unfold Py.len. induction draws as [|row draws IH]; simpl; [done|].
  pose proof (parsed_or_malformed SimpleFrequencyStrategy.BALL_COLUMNS row)
    as Hrow.
  unfold parsed_in_row, malformed_in_row.
  change (Py.len SimpleFrequencyStrategy.BALL_COLUMNS) with 6%Z in Hrow.
  lia.
Qed.

Lemma fold_left_Rplus (l : list R) (a : R) :
  fold_left Rplus l a = (a + fold_left Rplus l 0)%R.
Proof.
  revert a. induction l as [|x l IH]; intros a; simpl.
  - lra.
  - rewrite (IH (a + x)%R), (IH (0 + x)%R). lra.
Qed.

Lemma sum_to_scores (counter : Counter) :
  Py.sum (map snd (to_scores counter)) = IZR (total counter).
Proof.
  unfold Py.sum. induction counter as [|[k c] counter IH]; simpl.
  - done.
  - rewrite fold_left_Rplus, IH. unfold Py.float. rewrite plus_IZR. lra.
Qed.

(** C1. For every draw sequence, the scores that
    [SimpleFrequencyStrategy.calculate] returns add up to six times the
    number of draws minus the number of ball cells that are missing or do
    not read as an integer; that is, to the number of cells that read. *)
Theorem simple_scores_sum (draws : list Row) :
  Py.sum (map snd (SimpleFrequencyStrategy.calculate draws))
  = IZR (6 * Py.len draws - malformed_cells draws)
  ∧ Py.sum (map snd (SimpleFrequencyStrategy.calculate draws))
    = IZR (parsed_cells draws).
Proof.
  unfold SimpleFrequencyStrategy.calculate.
  rewrite sum_to_scores, total_count_draws.
  pose proof (parsed_plus_malformed draws) as Hcells.
  split; f_equal; simpl; lia.
Qed.

(** ** Slices *)

Lemma slice_from_neg_len {A : Type} (l : list A) :
  Py.slice_from (- Py.len l) l = l.
Proof.
  unfold Py.slice_from, Py.len.
  destruct (Z.ltb_spec (- Z.of_nat (length l)) 0).
  - replace (Z.of_nat (length l) + - Z.of_nat (length l))%Z with 0%Z by lia.
    done.
  - replace (Z.to_nat (- Z.of_nat (length l))) with 0%nat by lia. done.
Qed.

Lemma slice_to_nonneg {A : Type} (n : Z) (l : list A) :
  (0 ≤ n)%Z → Py.slice_to n l = take (Z.to_nat n) l.
Proof.
  intros Hn. unfold Py.slice_to.
  destruct (Z.ltb_spec n 0); [lia | done].
Qed.

(** A slice [l[:stop]] is a prefix of [l], whatever [stop] is. *)
Lemma slice_to_prefix {A : Type} (stop : Z) (l : list A) :
  ∃ rest, l = Py.slice_to stop l ++ rest.
Proof.
  unfold Py.slice_to.
  destruct (stop <? 0)%Z; eexists; symmetry; apply take_drop.
Qed.

Lemma slice_to_map {A B : Type} (f : A → B) (stop : Z) (l : list A) :
  Py.slice_to stop (map f l) = map f (Py.slice_to stop l).
Proof.
  unfold Py.slice_to, Py.len. rewrite length_map.
  destruct (stop <? 0)%Z; apply firstn_map.
Qed.

(** ** [sorted] *)

Section SortedFacts.
Context {A K : Type} (lt : K → K → bool) (key : A → K) (reverse : bool).

Local Abbreviation insert := (Py.insert lt key reverse).
Local Abbreviation sorted := (Py.sorted lt key reverse).
Local Abbreviation moves_past := (Py.moves_past lt key reverse).

Lemma insert_Permutation x l : insert x l ≡ₚ x :: l.
Proof.
  induction l as [|y l IH]; simpl; [done|].
  destruct (moves_past x y); [|done].
  rewrite IH. apply Permutation_swap.
Qed.

Lemma sorted_Permutation l : sorted l ≡ₚ l.
Proof.
  induction l as [|x l IH]; simpl; [done|].
  by rewrite insert_Permutation, IH.
Qed.

Lemma length_sorted l : length (sorted l) = length l.
Proof. apply Permutation_length, sorted_Permutation. Qed.

(** Stability: an element never moves past one of its own class, so the
    elements of a class keep their input order. *)
Section Stable.
Context (P : A → Prop) `{!∀ x, Decision (P x)}.
Hypothesis same_class : ∀ a b, P a → P b → lt (key a) (key b) = false.

Lemma filter_insert x l : filter P (insert x l) = filter P (x :: l).
Proof.
  induction l as [|y l IH]; simpl; [done|].
  destruct (moves_past x y) eqn:Hpast; [|done].
  rewrite (filter_cons _ y), IH, !filter_cons.
  destruct (decide (P x)) as [Hx|]; [|done].
  destruct (decide (P y)) as [Hy|]; [|done].
  unfold Py.moves_past in Hpast.
  destruct reverse; rewrite same_class in Hpast; done.
Qed.

Lemma sorted_stable l : filter P (sorted l) = filter P l.
Proof.
  induction l as [|x l IH]; simpl; [done|].
  by rewrite filter_insert, !filter_cons, IH.
Qed.
End Stable.

(** Order: for a strict weak order [lt], no element of the output would
    move past an earlier one. *)
Section Ordered.
Hypothesis lt_asym : ∀ a b, lt a b = true → lt b a = false.
Hypothesis lt_negtrans :
  ∀ a b c, lt a b = false → lt b c = false → lt a c = false.

Lemma moves_past_asym x y : moves_past x y = true → moves_past y x = false.
Proof. unfold Py.moves_past. destruct reverse; apply lt_asym. Qed.

Lemma moves_past_negtrans x y z :
  moves_past x y = false → moves_past y z = false → moves_past x z = false.
Proof.
  unfold Py.moves_past. destruct reverse; [apply lt_negtrans|].
  intros Hyx Hzy. by apply (lt_negtrans _ (key y)).
Qed.

Lemma insert_StronglySorted x l :
  StronglySorted (λ a b, moves_past a b = false) l →
  StronglySorted (λ a b, moves_past a b = false) (insert x l).
Proof.
  induction 1 as [|y l Hl IH Hy]; simpl.
  - repeat constructor.
  - destruct (moves_past x y) eqn:Hpast.
    + constructor; [done|].
      rewrite insert_Permutation. constructor; [|done].
      by apply moves_past_asym.
    + constructor; [by constructor|].
      constructor; [done|].
      eapply Forall_impl; [exact Hy|]. simpl. intros z Hz.
      by apply (moves_past_negtrans x y z).
Qed.

Lemma sorted_StronglySorted l :
  StronglySorted (λ a b, moves_past a b = false) (sorted l).
Proof.
  induction l as [|x l IH]; simpl; [constructor|].
  by apply insert_StronglySorted.
Qed.
End Ordered.
End SortedFacts.

(** Sorting commutes with a map that preserves the comparisons of keys. *)
Lemma sorted_map {A B K1 K2 : Type}
    (lt1 : K1 → K1 → bool) (lt2 : K2 → K2 → bool)
    (key1 : A → K1) (key2 : B → K2) (f : A → B)
    (reverse : bool) (l : list A) :
  (∀ a b, lt2 (key2 (f a)) (key2 (f b)) = lt1 (key1 a) (key1 b)) →
  Py.sorted lt2 key2 reverse (map f l) = map f (Py.sorted lt1 key1 reverse l).
Proof.
  intros Hlt. induction l as [|x l IH]; simpl; [done|].
  rewrite IH. generalize (Py.sorted lt1 key1 reverse l). intros l'.
  induction l' as [|y l' IH']; simpl; [done|].
  unfold Py.moves_past. rewrite !Hlt.
  destruct reverse.
  - destruct (lt1 (key1 x) (key1 y)); simpl; [by rewrite IH'|done].
  - destruct (lt1 (key1 y) (key1 x)); simpl; [by rewrite IH'|done].
Qed.

Lemma StronglySorted_weaken {A : Type} (R1 R2 : A → A → Prop) (l : list A) :
  (∀ a b, R1 a b → R2 a b) → StronglySorted R1 l → StronglySorted R2 l.
Proof.
  intros HR. induction 1 as [|x l Hl IH Hx]; constructor; [done|].
  eapply Forall_impl; [exact Hx|]. auto.
Qed.

(** ** Comparisons of scores *)

Lemma Rltb_true a b : Py.Rltb a b = true ↔ (a < b)%R.
Proof. unfold Py.Rltb. destruct (Rlt_dec a b); split; done || tauto. Qed.

Lemma Rltb_false a b : Py.Rltb a b = false ↔ (b <= a)%R.
Proof.
  unfold Py.Rltb. destruct (Rlt_dec a b); split; try done; intros; lra.
Qed.

Lemma Rltb_asym a b : Py.Rltb a b = true → Py.Rltb b a = false.
Proof. rewrite Rltb_true, Rltb_false. lra. Qed.

Lemma Rltb_negtrans a b c :
  Py.Rltb a b = false → Py.Rltb b c = false → Py.Rltb a c = false.
Proof. rewrite !Rltb_false. lra. Qed.

Lemma Rltb_float a b : Py.Rltb (Py.float a) (Py.float b) = (a <? b)%Z.
Proof.
  unfold Py.float. destruct (Z.ltb_spec a b) as [Hlt|Hle].
  - apply Rltb_true. by apply IZR_lt.
  - apply Rltb_false. by apply IZR_le.
Qed.

(** ** Ranking *)

(** The ranking of a map of counts is the ranking of the counts. *)
Lemma get_top_numbers_to_scores (counter : Counter) (n : Z) :
  FrequencyCalculator.get_top_numbers (to_scores counter) n
  = to_scores (Py.slice_to n (Py.sorted Z.ltb snd true counter)).
Proof.
  unfold FrequencyCalculator.get_top_numbers, to_scores.
  rewrite <- slice_to_map. f_equal.
  apply sorted_map. intros [k1 c1] [k2 c2]. simpl. apply Rltb_float.
Qed.

(** C7. For every score map and every [n >= 0], [get_top_numbers] returns
    [min(n, len(scores))] entries; for the empty map it returns the empty
    list, whatever [n] is. *)
Theorem top_numbers_length (frequencies : ScoreMap) (n : Z) :
  ((0 ≤ n)%Z →
   Py.len (FrequencyCalculator.get_top_numbers frequencies n)
   = Z.min n (Py.len frequencies))
  ∧ FrequencyCalculator.get_top_numbers [] n = [].
Proof.
  unfold FrequencyCalculator.get_top_numbers. split.
  - intros Hn. rewrite slice_to_nonneg by done.
    unfold Py.len. rewrite length_take, length_sorted. lia.
  - unfold Py.slice_to. simpl. by rewrite !take_nil; destruct (n <? 0)%Z.
Qed.

Lemma top_numbers_length_witness :
  Py.len (FrequencyCalculator.get_top_numbers
            (SimpleFrequencyStrategy.calculate sample_draws) 5)
  = Z.min 5 (Py.len (SimpleFrequencyStrategy.calculate sample_draws)).
Proof.
  apply (proj1 (top_numbers_length
                  (SimpleFrequencyStrategy.calculate sample_draws) 5)).
  lia.
Defined.

(** The ranking of the fixture: the three numbers drawn three times, then
    the numbers drawn once in the order in which the draws brought them. *)
Lemma sample_ranking :
  FrequencyCalculator.get_top_numbers
    (SimpleFrequencyStrategy.calculate sample_draws) 8
  = [(10%Z, 3%R); (20%Z, 3%R); (30%Z, 3%R); (40%Z, 1%R);
     (50%Z, 1%R); (60%Z, 1%R); (5%Z, 1%R); (15%Z, 1%R)].
Proof.
  unfold SimpleFrequencyStrategy.calculate.
  rewrite get_top_numbers_to_scores.
  set (ranked := Py.slice_to _ _).
  assert (ranked
          = [(10, 3); (20, 3); (30, 3); (40, 1);
             (50, 1); (60, 1); (5, 1); (15, 1)]%Z) as ->
    by (subst ranked; vm_compute; reflexivity).
  reflexivity.
Qed.

(** C2, as stated, fails: in the ranking of the fixture 40 stands before 5
    although both have score 1. *)
Lemma top_numbers_tie_not_by_number :
  ∃ (i j : nat) (a b : Z * R),
    (i < j)%nat
    ∧ FrequencyCalculator.get_top_numbers
        (SimpleFrequencyStrategy.calculate sample_draws) 8 !! i = Some a
    ∧ FrequencyCalculator.get_top_numbers
        (SimpleFrequencyStrategy.calculate sample_draws) 8 !! j = Some b
    ∧ a.2 = b.2
    ∧ (b.1 < a.1)%Z.
Proof.
  exists 3%nat, 6%nat, (40%Z, 1%R), (5%Z, 1%R).
  rewrite sample_ranking. simpl. repeat split; lia.
Qed.

(** C2, amended. The ranking of [get_top_numbers] is in descending order of
    score, and entries of equal score stand in the order they have in the
    score map (its insertion order), whatever their numbers are. *)
Theorem top_numbers_order (frequencies : ScoreMap) (n : Z) :
  StronglySorted (λ a b, (b.2 <= a.2)%R)
    (FrequencyCalculator.get_top_numbers frequencies n)
  ∧ ∀ score : R,
      filter (λ entry, entry.2 = score)
        (FrequencyCalculator.get_top_numbers frequencies n)
      `prefix_of` filter (λ entry, entry.2 = score) frequencies.
Proof.
  unfold FrequencyCalculator.get_top_numbers.
  destruct (slice_to_prefix n (Py.sorted Py.Rltb snd true frequencies))
    as [rest Hrest].
  split.
  - apply (StronglySorted_app_1_l _ _ rest). rewrite <- Hrest.
    eapply StronglySorted_weaken;
      [|apply sorted_StronglySorted; [apply Rltb_asym | apply Rltb_negtrans]].
    intros a b. unfold Py.moves_past. by rewrite Rltb_false.
  - intros score. exists (filter (λ entry, entry.2 = score) rest).
    rewrite <- filter_app, <- Hrest.
    symmetry. apply sorted_stable.
    intros a b Ha Hb. apply Rltb_false. rewrite Ha, Hb. lra.
Qed.

(** ** The window of recent draws *)

Lemma recent_count_row :
  RecentOnlyStrategy.count_row = SimpleFrequencyStrategy.count_row.
Proof. reflexivity. Qed.

Lemma calculate_draws_mode (n_items : Z) (draws : list Row) :
  RecentOnlyStrategy.calculate
    {| RecentOnlyStrategy.n_items := n_items;
       RecentOnlyStrategy.mode := "draws" |} draws
  = Ok (SimpleFrequencyStrategy.calculate
          (if (n_items <=? Py.len draws)%Z
           then Py.slice_from (- n_items) draws
           else draws)).
Proof. reflexivity. Qed.

(** C3. In draws mode with [n_items >= len(draws)], [RecentOnlyStrategy]
    returns exactly the score map of [SimpleFrequencyStrategy]. *)
Theorem recent_window_whole_sequence (n_items : Z) (draws : list Row) :
  (Py.len draws ≤ n_items)%Z →
  RecentOnlyStrategy.calculate
    {| RecentOnlyStrategy.n_items := n_items;
       RecentOnlyStrategy.mode := "draws" |} draws
  = Ok (SimpleFrequencyStrategy.calculate draws).
Proof.
  intros Hn. rewrite calculate_draws_mode.
  destruct (Z.leb_spec n_items (Py.len draws)) as [Hle|_]; [|done].
  assert (n_items = Py.len draws) as -> by lia.
  by rewrite slice_from_neg_len.
Qed.

Lemma recent_window_whole_sequence_witness :
  RecentOnlyStrategy.calculate
    {| RecentOnlyStrategy.n_items := 5;
       RecentOnlyStrategy.mode := "draws" |} sample_draws
  = Ok (SimpleFrequencyStrategy.calculate sample_draws).
Proof.
  apply (recent_window_whole_sequence 5 sample_draws).
  vm_compute. discriminate.
Defined.

(** C9. In draws mode with [n_items = 0] the slice [draws[-0:]] is the whole
    list: the result is the frequency map of the entire sequence, which is
    not empty as soon as one ball cell reads. *)
Theorem recent_window_zero_items (draws : list Row) :
  RecentOnlyStrategy.calculate
    {| RecentOnlyStrategy.n_items := 0;
       RecentOnlyStrategy.mode := "draws" |} draws
  = Ok (SimpleFrequencyStrategy.calculate draws)
  ∧ (parsed_cells draws ≠ 0%Z →
     RecentOnlyStrategy.calculate
       {| RecentOnlyStrategy.n_items := 0;
          RecentOnlyStrategy.mode := "draws" |} draws
     ≠ Ok []).
Proof.
  rewrite calculate_draws_mode.
  assert ((if (0 <=? Py.len draws)%Z
           then Py.slice_from (- 0) draws else draws) = draws) as ->.
  { unfold Py.len. by destruct (Z.leb_spec 0 (Z.of_nat (length draws))). }
  split; [done|].
  intros Hcells [= Hempty]. apply Hcells.
  unfold SimpleFrequencyStrategy.calculate in Hempty.
  destruct (fold_left SimpleFrequencyStrategy.count_row draws [])
    as [|entry counter] eqn:Hcounter; [|done].
  pose proof (total_count_draws draws []) as Htotal.
  rewrite Hcounter in Htotal. simpl in Htotal. lia.
Qed.

Lemma recent_window_zero_items_witness :
  RecentOnlyStrategy.calculate
    {| RecentOnlyStrategy.n_items := 0;
       RecentOnlyStrategy.mode := "draws" |} sample_draws
  ≠ Ok [].
Proof.
  apply (proj2 (recent_window_zero_items sample_draws)).
  vm_compute. discriminate.
Defined.

(** ** The window of recent years *)

Lemma calculate_of_recent_draws self draws rows :
  RecentOnlyStrategy.recent_draws self draws = Ok rows →
  RecentOnlyStrategy.calculate self draws
  = Ok (SimpleFrequencyStrategy.calculate rows).
Proof.
  intros Hrows. unfold RecentOnlyStrategy.calculate. by rewrite Hrows.
Qed.

(** C5, as stated, fails: with a last date that is present but carries no
    readable year, years mode raises [ValueError] instead of counting the
    whole sequence. *)
Lemma years_mode_unreadable_date_raises :
  (List.last undated_draws ∅ : Row) !! "Data" = Some "sem data"
  ∧ RecentOnlyStrategy.calculate
      {| RecentOnlyStrategy.n_items := 1;
         RecentOnlyStrategy.mode := "years" |} undated_draws
    = Raise ValueError
  ∧ RecentOnlyStrategy.calculate
      {| RecentOnlyStrategy.n_items := 1;
         RecentOnlyStrategy.mode := "years" |} undated_draws
    ≠ Ok (SimpleFrequencyStrategy.calculate undated_draws).
Proof.
  assert (RecentOnlyStrategy.calculate
            {| RecentOnlyStrategy.n_items := 1;
               RecentOnlyStrategy.mode := "years" |} undated_draws
          = Raise ValueError) as Hraise by (vm_compute; reflexivity).
  split; [by vm_compute|]. split; [done|]. by rewrite Hraise.
Qed.

(** C5, amended. In years mode (any mode other than ['draws']): an empty
    sequence gives the empty map; when the last record has no date or an
    empty one, the whole sequence is counted; when the last record has a
    date whose text after the last ['/'] is no integer, [calculate] raises
    [ValueError]. *)
Theorem years_mode_last_date (self : RecentOnlyStrategy.t)
    (earlier : list Row) (last_row : Row) :
  RecentOnlyStrategy.mode self ≠ "draws" →
  RecentOnlyStrategy.calculate self [] = Ok []
  ∧ (default EmptyString (last_row !! "Data") = EmptyString →
     RecentOnlyStrategy.calculate self (earlier ++ [last_row])
     = Ok (SimpleFrequencyStrategy.calculate (earlier ++ [last_row])))
  ∧ (∀ date,
       last_row !! "Data" = Some date →
       date ≠ EmptyString →
       Py.int (List.last (Py.split "/" date) EmptyString) = None →
       RecentOnlyStrategy.calculate self (earlier ++ [last_row])
       = Raise ValueError).
Proof.
  intros Hmode. apply String.eqb_neq in Hmode.
  assert (∀ draws,
            RecentOnlyStrategy.recent_draws self (draws ++ [last_row])
            = let most_recent_date :=
                default EmptyString (last_row !! "Data") in
              if Py.truthy most_recent_date then
                most_recent_year ← RecentOnlyStrategy.year most_recent_date;
                RecentOnlyStrategy.rows_since
                  (most_recent_year - RecentOnlyStrategy.n_items self + 1)
                  (draws ++ [last_row])
              else Ok (draws ++ [last_row])) as Hrecent.
  { intros draws. unfold RecentOnlyStrategy.recent_draws.
    rewrite Hmode, last_last. by destruct draws. }
  split; [|split].
  - unfold RecentOnlyStrategy.calculate, RecentOnlyStrategy.recent_draws.
    by rewrite Hmode.
  - intros Hdate. apply calculate_of_recent_draws.
    rewrite Hrecent. simpl. by rewrite Hdate.
  - intros date Hdate Hnonempty Hyear.
    unfold RecentOnlyStrategy.calculate. rewrite Hrecent. simpl.
    rewrite Hdate. simpl.
    destruct date as [|c date]; [done|]. simpl.
    unfold RecentOnlyStrategy.year. by rewrite Hyear.
Qed.

Lemma years_mode_last_date_witness :
  RecentOnlyStrategy.calculate
    {| RecentOnlyStrategy.n_items := 1;
       RecentOnlyStrategy.mode := "years" |} dateless_draws
  = Ok (SimpleFrequencyStrategy.calculate dateless_draws).
Proof.
  apply (years_mode_last_date
           {| RecentOnlyStrategy.n_items := 1;
              RecentOnlyStrategy.mode := "years" |}
           [draw "1" "11/03/1996" "10" "20" "30" "40" "50" "60"]
           (delete "Data"
              (draw "2" "18/03/1996" "5" "10" "15" "20" "25" "30"))).
  - simpl. discriminate.
  - vm_compute. reflexivity.
Defined.

(** ** Keys and signs of the scores *)






Lemma position_nonneg total_draws draw_index :
  (0 ≤ draw_index)%Z →
  (0 <= WeightedFrequencyStrategy.position total_draws draw_index)%R.
Proof.
  intros Hi. unfold WeightedFrequencyStrategy.position.
  destruct (Z.ltb_spec 1 total_draws) as [Htotal|_]; [|lra].
  apply Rmult_le_pos.
  - by apply (IZR_le 0).
  - left. apply Rinv_0_lt_compat. apply (IZR_lt 0). lia.
Qed.

Lemma weight_nonneg self position :
  (0 <= position)%R →
  (0 <= WeightedFrequencyStrategy._calculate_weight self position)%R.
Proof.
  intros Hp. unfold WeightedFrequencyStrategy._calculate_weight.
  destruct (WeightedFrequencyStrategy.weight_mode self =? "recent_more")%string.
  - left. apply Rdiv_lt_0_compat; apply exp_pos.
  - destruct
      (WeightedFrequencyStrategy.weight_mode self =? "recent_linear")%string.
    + lra.
    + left. apply Rdiv_lt_0_compat; apply exp_pos.
Qed.


(** ** Signs in binary64 arithmetic *)

Section Rounding.
Variables prec emax : Z.

















End Rounding.


















(** ** The Weighted loop over binary64 scores *)



Lemma weight64_linear math_exp self position :
  Binary64.weight_mode self = "recent_linear" →
  Binary64._calculate_weight math_exp self position
  = Ok (0.25 + 0.75 * position)%float.
Proof.
  intros Hmode. unfold Binary64._calculate_weight. rewrite Hmode. reflexivity.
Qed.


Lemma calculate_from_linear math_exp self total_draws
    (rows : list (Z * Row)) (scores : list (Z * float)) :
  Binary64.weight_mode self = "recent_linear" →
  ∃ scores',
    Binary64.calculate_from math_exp self total_draws scores rows
    = Ok scores'.
Proof.
  intros Hmode. revert scores.
  induction rows as [|[i row] rows IH]; intros scores;
    cbn [Binary64.calculate_from]; [by eexists|].
  rewrite weight64_linear by done. apply IH.
Qed.

Lemma weight64_more math_exp decay position (a b : Py.result float) :
  math_exp (decay * position)%float = a → math_exp decay = b →
  Binary64._calculate_weight math_exp
    {| Binary64.weight_mode := "recent_more";
       Binary64.decay_factor := decay |} position
  = (a ← a; b ← b; Binary64.truediv a b).
Proof. by intros <- <-. Qed.

(** On the draws of the fixture the first weight of mode ['recent_more']
    is [exp(decay * 0.0) / exp(decay)]; with decay factor 1000 the divisor
    overflows. *)
Lemma weighted_sample_overflow (math_exp : float → Py.result float) :
  math_exp 0%float = Ok 1%float →
  math_exp 1000%float = Raise OverflowError →
  Binary64.calculate math_exp
    {| Binary64.weight_mode := "recent_more";
       Binary64.decay_factor := 1000 |} sample_draws
  = Raise OverflowError.
Proof.
  intros Hzero Hraise.
  unfold Binary64.calculate, Py.enumerate, sample_draws.
  cbn [Py.enumerate_from Binary64.calculate_from].
  change (Py.len _) with 3%Z.
  change (Binary64.position 3 0) with 0%float.
  rewrite (weight64_more math_exp 1000%float 0%float (Ok 1%float)
             (Raise OverflowError) Hzero Hraise).
  reflexivity.
Qed.




(** ** The weight of a position *)

(** C10. Every weight mode other than ['recent_more'] and ['recent_linear']
    gives the older-more weight [exp(decay * (1 - p)) / exp(decay)], the
    weight of mode ['recent_less'], in exact arithmetic and, with the same
    exceptions if any, in binary64 arithmetic. *)
Theorem unknown_mode_weighs_as_recent_less (mode : string) :
  mode ≠ "recent_more" → mode ≠ "recent_linear" →
  (∀ decay p : R,
     WeightedFrequencyStrategy._calculate_weight
       {| WeightedFrequencyStrategy.weight_mode := mode;
          WeightedFrequencyStrategy.decay_factor := decay |} p
     = (exp (decay * (1 - p)) / exp decay)%R
     ∧ WeightedFrequencyStrategy._calculate_weight
         {| WeightedFrequencyStrategy.weight_mode := mode;
            WeightedFrequencyStrategy.decay_factor := decay |} p
       = WeightedFrequencyStrategy._calculate_weight
           {| WeightedFrequencyStrategy.weight_mode := "recent_less";
              WeightedFrequencyStrategy.decay_factor := decay |} p)
  ∧ (∀ (math_exp : float → Py.result float) (decay p : float),
       Binary64._calculate_weight math_exp
         {| Binary64.weight_mode := mode;
            Binary64.decay_factor := decay |} p
       = (a ← math_exp (decay * (1 - p))%float;
          b ← math_exp decay;
          Binary64.truediv a b)
       ∧ Binary64._calculate_weight math_exp
           {| Binary64.weight_mode := mode;
              Binary64.decay_factor := decay |} p
         = Binary64._calculate_weight math_exp
             {| Binary64.weight_mode := "recent_less";
                Binary64.decay_factor := decay |} p).
Proof.
  intros Hmore Hlinear.
  apply String.eqb_neq in Hmore, Hlinear.
  split; intros; unfold WeightedFrequencyStrategy._calculate_weight,
    Binary64._calculate_weight; simpl; by rewrite Hmore, Hlinear.
Qed.

Lemma unknown_mode_weighs_as_recent_less_witness :
  WeightedFrequencyStrategy._calculate_weight
    {| WeightedFrequencyStrategy.weight_mode := "older_more";
       WeightedFrequencyStrategy.decay_factor := 2 |} 0.5
  = (exp (2 * (1 - 0.5)) / exp 2)%R.
Proof.
  apply (proj1 (unknown_mode_weighs_as_recent_less "older_more"
                  ltac:(discriminate) ltac:(discriminate))).
Defined.

(** C8, as stated, fails in binary64 arithmetic: the positions [0] and
    [2^-60] both lie in [0, 1] and differ, yet both weigh [0.25]. *)
Lemma recent_linear_weight_not_strict :
  (0 <=? 0)%float = true
  ∧ (0 <? 0x1p-60)%float = true
  ∧ (0x1p-60 <=? 1)%float = true
  ∧ ∀ (math_exp : float → Py.result float) (decay : float),
      Binary64._calculate_weight math_exp
        {| Binary64.weight_mode := "recent_linear";
           Binary64.decay_factor := decay |} 0%float
      = Ok 0.25%float
      ∧ Binary64._calculate_weight math_exp
          {| Binary64.weight_mode := "recent_linear";
             Binary64.decay_factor := decay |} 0x1p-60%float
        = Ok 0.25%float
      ∧ (0.25 <? 0.25)%float = false.
Proof. repeat split; reflexivity. Qed.

(** C8, amended. In mode ['recent_linear'] the weight of [p] is the binary64
    value of [0.25 + 0.75 * p]; it is exactly [0.25] at [0], [0.625] at [0.5]
    and [1.0] at [1.0], three values in strictly increasing order; and in
    exact arithmetic [0.25 + 0.75 * p] is strictly increasing in [p]. *)
Theorem recent_linear_weight
    (math_exp : float → Py.result float) (decay : float) :
  (∀ p : float,
     Binary64._calculate_weight math_exp
       {| Binary64.weight_mode := "recent_linear";
          Binary64.decay_factor := decay |} p
     = Ok (0.25 + 0.75 * p)%float)
  ∧ Binary64._calculate_weight math_exp
      {| Binary64.weight_mode := "recent_linear";
         Binary64.decay_factor := decay |} 0%float
    = Ok 0.25%float
  ∧ Binary64._calculate_weight math_exp
      {| Binary64.weight_mode := "recent_linear";
         Binary64.decay_factor := decay |} 0.5%float
    = Ok 0.625%float
  ∧ Binary64._calculate_weight math_exp
      {| Binary64.weight_mode := "recent_linear";
         Binary64.decay_factor := decay |} 1%float
    = Ok 1%float
  ∧ (0.25 <? 0.625)%float = true
  ∧ (0.625 <? 1)%float = true
  ∧ ∀ (real_decay p q : R),
      WeightedFrequencyStrategy._calculate_weight
        {| WeightedFrequencyStrategy.weight_mode := "recent_linear";
           WeightedFrequencyStrategy.decay_factor := real_decay |} p
      = (0.25 + 0.75 * p)%R
      ∧ ((p < q)%R →
         (WeightedFrequencyStrategy._calculate_weight
            {| WeightedFrequencyStrategy.weight_mode := "recent_linear";
               WeightedFrequencyStrategy.decay_factor := real_decay |} p
          < WeightedFrequencyStrategy._calculate_weight
              {| WeightedFrequencyStrategy.weight_mode := "recent_linear";
                 WeightedFrequencyStrategy.decay_factor := real_decay |} q)%R).
Proof.
  split; [intros p; reflexivity|].
  do 5 (split; [reflexivity|]).
  intros real_decay p q.
  unfold WeightedFrequencyStrategy._calculate_weight. simpl.
  split; [reflexivity | lra].
Qed.

Lemma recent_linear_weight_witness :
  (WeightedFrequencyStrategy._calculate_weight
     {| WeightedFrequencyStrategy.weight_mode := "recent_linear";
        WeightedFrequencyStrategy.decay_factor := 2 |} 0
   < WeightedFrequencyStrategy._calculate_weight
       {| WeightedFrequencyStrategy.weight_mode := "recent_linear";
          WeightedFrequencyStrategy.decay_factor := 2 |} 1)%R.
Proof.
  apply (recent_linear_weight (λ _, Raise OverflowError) 2%float).
  lra.
Defined.

(** ** Consensus *)

Lemma Zltb_asym a b : (a <? b)%Z = true → (b <? a)%Z = false.
Proof. lia. Qed.

Lemma Zltb_negtrans a b c :
  (a <? b)%Z = false → (b <? c)%Z = false → (a <? c)%Z = false.
Proof. lia. Qed.

(** [sorted(nums)] on integers is in ascending order. *)
Lemma sorted_numbers_ascending (nums : list Z) :
  StronglySorted Z.le (Py.sorted Z.ltb (λ num : Z, num) false nums).
Proof.
  eapply StronglySorted_weaken;
    [|apply sorted_StronglySorted; [apply Zltb_asym | apply Zltb_negtrans]].
  intros a b. unfold Py.moves_past. lia.
Qed.

(** [sorted] on integers does not depend on the order of its input. *)
Lemma sorted_numbers_Permutation (nums nums' : list Z) :
  nums ≡ₚ nums' →
  Py.sorted Z.ltb (λ num : Z, num) false nums
  = Py.sorted Z.ltb (λ num : Z, num) false nums'.
Proof.
  intros Hperm.
  apply (StronglySorted_unique Z.le); try apply sorted_numbers_ascending.
  by rewrite !sorted_Permutation.
Qed.

(** Writing the keys of a duplicate-free list one after the other appends
    one entry per key, in that order. *)
Lemma fold_set_fresh (f : Z → Z) (nums : list Z) (counts : list (Z * Z)) :
  NoDup (map fst counts ++ nums) →
  fold_left (λ counts num, Py.set num (f num) counts) nums counts
  = counts ++ map (λ num, (num, f num)) nums.
Proof.
  revert counts. induction nums as [|num nums IH]; intros counts Hnodup; simpl.
  - by rewrite app_nil_r.
  - rewrite set_fresh.
    + rewrite IH; [by rewrite <- app_assoc|].
      by rewrite map_app, <- app_assoc.
    + apply NoDup_app in Hnodup as (_ & Hfresh & _).
      intros Hin. apply (Hfresh num Hin). left.
Qed.

Section ConsensusFacts.
Variable set_iter : gset Z → list Z.
Hypothesis set_iter_enumerates : ∀ X : gset Z, set_iter X ≡ₚ elements X.

Lemma consensus_single_strategy_sorted
    (name : string) (nums : list Z) (simple_freq : option ScoreMap) :
  NoDup nums → (length nums ≤ 8)%nat →
  ResultFormatter.display_consensus_analysis set_iter
    [(name, nums)] simple_freq
  = Py.sorted Z.ltb (λ num : Z, num) false nums.
Proof.
  intros Hnodup Hlen.
  unfold ResultFormatter.display_consensus_analysis. simpl map.
  rewrite (right_id_L ∅ (∪) (list_to_set nums : gset Z)).
  assert (set_iter (list_to_set nums) ≡ₚ nums) as Hiter
    by (by rewrite set_iter_enumerates, elements_list_to_set).
  rewrite fold_set_fresh
    by (simpl; by rewrite Hiter).
  simpl app.
  apply sorted_numbers_Permutation.
  rewrite slice_to_nonneg by lia.
  rewrite take_ge.
  - rewrite sorted_Permutation, map_map. simpl. by rewrite map_id.
  - rewrite length_sorted, length_map, Hiter. simpl. lia.
Qed.

(** C4. Given one strategy's list of distinct numbers, at most eight of
    them, [display_consensus_analysis] returns that list sorted in ascending
    order and of the same length, whatever reference score map it is given
    and in whatever order the interpreter visits the set of numbers. *)
Theorem consensus_single_strategy
    (name : string) (nums : list Z) (simple_freq : option ScoreMap) :
  NoDup nums → (length nums ≤ 8)%nat →
  ResultFormatter.display_consensus_analysis set_iter
    [(name, nums)] simple_freq
  = Py.sorted Z.ltb (λ num : Z, num) false nums
  ∧ ResultFormatter.display_consensus_analysis set_iter
      [(name, nums)] simple_freq ≡ₚ nums
  ∧ StronglySorted Z.le
      (ResultFormatter.display_consensus_analysis set_iter
         [(name, nums)] simple_freq)
  ∧ length (ResultFormatter.display_consensus_analysis set_iter
              [(name, nums)] simple_freq)
    = length nums
  ∧ (length (ResultFormatter.display_consensus_analysis set_iter
               [(name, nums)] simple_freq) ≤ 8)%nat.
Proof.
  intros Hnodup Hlen.
  rewrite consensus_single_strategy_sorted by done.
  split; [done|]. split; [apply sorted_Permutation|].
  split; [apply sorted_numbers_ascending|].
  rewrite length_sorted. done.
Qed.
End ConsensusFacts.

Lemma consensus_single_strategy_witness :
  ResultFormatter.display_consensus_analysis elements
    [("Only Strategy", [10; 20; 5; 30; 15; 25; 40; 35]%Z)]
    (Some (SimpleFrequencyStrategy.calculate sample_draws))
  = [5; 10; 15; 20; 25; 30; 35; 40]%Z.
Proof.
  apply (consensus_single_strategy elements (λ X, reflexivity (elements X))
           "Only Strategy" [10; 20; 5; 30; 15; 25; 40; 35]%Z
           (Some (SimpleFrequencyStrategy.calculate sample_draws))).
  - apply (bool_decide_unpack _). vm_compute. exact I.
  - simpl. lia.
Defined.

(** * Further properties of the code *)

(** ** Reading and writing dictionaries *)

Section DictAccess.
Context {V : Type}.
Implicit Types (d : list (Z * V)) (k : Z) (v : V).

Lemma get_set k k' v d :
  Py.get k' (Py.set k v d) = if (k' =? k)%Z then Some v else Py.get k' d.
Proof.
  induction d as [|[k0 v0] d IH]; simpl.
  - done.
  - destruct (Z.eqb_spec k k0) as [->|Hne]; simpl.
    + by destruct (k' =? k0)%Z.
    + rewrite IH.
      destruct (Z.eqb_spec k' k0) as [->|_]; [|done].
      by destruct (Z.eqb_spec k0 k) as [->|_].
Qed.

Lemma keys_set k v d : map fst (Py.set k v d) = add_key (map fst d) k.
Proof.
  unfold add_key. induction d as [|[k0 v0] d IH].
  - cbn [Py.set map fst].
    destruct (decide (k ∈ [])) as [Hin|_]; [|done].
    by apply not_elem_of_nil in Hin.
  - cbn [Py.set map fst]. destruct (Z.eqb_spec k k0) as [->|Hne].
    + cbn [map fst].
      destruct (decide (k0 ∈ k0 :: map fst d)) as [_|Hnin]; [done|].
      exfalso. apply Hnin. left.
    + cbn [map fst]. rewrite IH.
      destruct (decide (k ∈ map fst d)) as [Hin|Hnin],
        (decide (k ∈ k0 :: map fst d)) as [Hin'|Hnin']; try done.
      * exfalso. apply Hnin'. by right.
      * apply elem_of_cons in Hin' as [?|?]; done.
Qed.

Lemma get_add_to zero plus k k' v d :
  Py.get k' (Py.add_to zero plus k v d)
  = if (k' =? k)%Z then Some (plus (default zero (Py.get k d)) v)
    else Py.get k' d.
Proof. apply get_set. Qed.

Lemma keys_add_to zero plus k v d :
  map fst (Py.add_to zero plus k v d) = add_key (map fst d) k.
Proof. apply keys_set. Qed.

(** The column loop of the strategies is a loop over the numbers read. *)
Lemma fold_columns_numbers zero plus amount (row : Row) (cols : list string) d :
  fold_left
    (λ d col,
       match ball row col with
       | Some number => Py.add_to zero plus number amount d
       | None => d
       end)
    cols d
  = fold_left (λ d number, Py.add_to zero plus number amount d)
      (omap (ball row) cols) d.
Proof.
  revert d. induction cols as [|col cols IH]; intros d; simpl; [done|].
  rewrite IH. by destruct (ball row col).
Qed.

Lemma keys_fold_numbers zero plus amount (numbers : list Z) d :
  map fst
    (fold_left (λ d number, Py.add_to zero plus number amount d) numbers d)
  = fold_left add_key numbers (map fst d).
Proof.
  revert d. induction numbers as [|n numbers IH]; intros d; simpl; [done|].
  by rewrite IH, keys_add_to.
Qed.
End DictAccess.

(** ** The numbers of a draw *)

Lemma fold_extract (draw : Row) (cols : list string) (numbers : list Z) :
  fold_left
    (λ numbers col,
       match ball draw col with
       | Some number => numbers ++ [number]
       | None => numbers
       end)
    cols numbers
  = numbers ++ omap (ball draw) cols.
Proof.
  revert numbers. induction cols as [|col cols IH]; intros numbers; simpl.
  - by rewrite app_nil_r.
  - rewrite IH. destruct (ball draw col); [|done]. by rewrite <- app_assoc.
Qed.

Lemma extract_numbers_omap (draw : Row) :
  MegaSenaDataLoader.extract_numbers draw
  = omap (ball draw) MegaSenaDataLoader.BALL_COLUMNS.
Proof. apply fold_extract. Qed.

Lemma length_omap_ball (draw : Row) (cols : list string) :
  Py.len (omap (ball draw) cols)
  = Py.len (filter (λ col, is_Some (ball draw col)) cols).
Proof.
  unfold Py.len. f_equal.
  induction cols as [|col cols IH]; [done|].
  rewrite filter_cons.
  change (omap (ball draw) (col :: cols))
    with (match ball draw col with
          | Some n => n :: omap (ball draw) cols
          | None => omap (ball draw) cols
          end).
  destruct (ball draw col) as [n|] eqn:Hball.
  - rewrite decide_True by by eexists. simpl. by rewrite IH.
  - rewrite decide_False by by intros [? ?]. done.
Qed.

(** X1. [extract_numbers] returns the readable ball cells of a draw in
    column order: the readings of ['bola 1'] to ['bola 6'] one after the
    other, each as often as it is read, the cells that are missing or
    unreadable left out; so it returns as many numbers as cells read, six at
    most, six exactly when no cell is missing or unreadable, and each the
    reading of a ball column. *)
Theorem extract_numbers_cells (draw : Row) :
  MegaSenaDataLoader.extract_numbers draw
  = omap (ball draw)
      ["bola 1"; "bola 2"; "bola 3"; "bola 4"; "bola 5"; "bola 6"]
  ∧ Py.len (MegaSenaDataLoader.extract_numbers draw) = parsed_in_row draw
  ∧ (0 ≤ Py.len (MegaSenaDataLoader.extract_numbers draw) ≤ 6)%Z
  ∧ (Py.len (MegaSenaDataLoader.extract_numbers draw) = 6%Z
     ↔ malformed_in_row draw = 0%Z)
  ∧ ∀ n, n ∈ MegaSenaDataLoader.extract_numbers draw
         ↔ ∃ col, col ∈ MegaSenaDataLoader.BALL_COLUMNS
                  ∧ ball draw col = Some n.
Proof.
  split; [apply extract_numbers_omap|].
  rewrite extract_numbers_omap.
  assert (Py.len (omap (ball draw) MegaSenaDataLoader.BALL_COLUMNS)
          = parsed_in_row draw) as Hlen by apply length_omap_ball.
  pose proof (parsed_or_malformed SimpleFrequencyStrategy.BALL_COLUMNS draw)
    as Hcells.
  change (Py.len SimpleFrequencyStrategy.BALL_COLUMNS) with 6%Z in Hcells.
  fold (parsed_in_row draw) in Hcells. fold (malformed_in_row draw) in Hcells.
  assert (0 ≤ parsed_in_row draw)%Z by (unfold parsed_in_row, Py.len; lia).
  assert (0 ≤ malformed_in_row draw)%Z
    by (unfold malformed_in_row, Py.len; lia).
  rewrite Hlen. repeat split; try lia.
  - intros Hn. apply list_elem_of_omap in Hn as (col & Hcol & Hball). eauto.
  - intros (col & Hcol & Hball). apply list_elem_of_omap. eauto.
Qed.

(** ** What the Simple strategy counts *)

Lemma occurrences_nonneg k numbers : (0 ≤ occurrences k numbers)%Z.
Proof. unfold occurrences, Py.len. lia. Qed.

Lemma occurrences_cons k n numbers :
  occurrences k (n :: numbers)
  = ((if (k =? n)%Z then 1 else 0) + occurrences k numbers)%Z.
Proof.
  unfold occurrences, Py.len. rewrite filter_cons.
  destruct (Z.eqb_spec k n) as [->|Hne].
  - rewrite decide_True by done. simpl length. lia.
  - rewrite decide_False by congruence. lia.
Qed.

Lemma occurrences_app k numbers numbers' :
  occurrences k (numbers ++ numbers')
  = (occurrences k numbers + occurrences k numbers')%Z.
Proof.
  unfold occurrences, Py.len. rewrite filter_app, length_app. lia.
Qed.

Lemma count_draws_numbers (draws : list Row) (counter : Counter) :
  fold_left SimpleFrequencyStrategy.count_row draws counter
  = fold_left (λ counter number, Py.add_to 0%Z Z.add number 1%Z counter)
      (drawn draws) counter.
Proof.
  revert counter. unfold drawn.
  induction draws as [|row draws IH]; intros counter; simpl; [done|].
  rewrite fold_left_app, IH. f_equal.
  unfold SimpleFrequencyStrategy.count_row.
  rewrite fold_columns_numbers. by rewrite extract_numbers_omap.
Qed.

Lemma get_count_numbers k (numbers : list Z) (counter : Counter) :
  Py.get k
    (fold_left (λ counter number, Py.add_to 0%Z Z.add number 1%Z counter)
       numbers counter)
  = if (occurrences k numbers =? 0)%Z then Py.get k counter
    else Some (default 0 (Py.get k counter) + occurrences k numbers)%Z.
Proof.
  revert counter.
  induction numbers as [|n numbers IH]; intros counter; simpl; [done|].
  rewrite IH, get_add_to, occurrences_cons.
  pose proof (occurrences_nonneg k numbers).
  destruct (Z.eqb_spec k n) as [->|Hne]; simpl.
  - destruct (Z.eqb_spec (occurrences n numbers) 0) as [->|_];
      destruct (Z.eqb_spec (1 + occurrences n numbers) 0);
      try lia; f_equal; lia.
  - done.
Qed.

Lemma get_to_scores k (counter : Counter) :
  Py.get k (to_scores counter) = Py.float <$> Py.get k counter.
Proof.
  induction counter as [|[k0 c0] counter IH]; simpl; [done|].
  by destruct (k =? k0)%Z.
Qed.

Lemma keys_to_scores (counter : Counter) :
  map fst (to_scores counter) = map fst counter.
Proof.
  unfold to_scores. rewrite map_map. apply map_ext. by intros [k c].
Qed.

Lemma get_simple_calculate (draws : list Row) (k : Z) :
  Py.get k (SimpleFrequencyStrategy.calculate draws)
  = if (occurrences k (drawn draws) =? 0)%Z then None
    else Some (IZR (occurrences k (drawn draws))).
Proof.
  unfold SimpleFrequencyStrategy.calculate.
  rewrite get_to_scores, count_draws_numbers, get_count_numbers. simpl.
  by destruct (occurrences k (drawn draws) =? 0)%Z.
Qed.

Lemma simple_score_default (draws : list Row) (k : Z) :
  default 0%R (Py.get k (SimpleFrequencyStrategy.calculate draws))
  = IZR (occurrences k (drawn draws)).
Proof.
  rewrite get_simple_calculate.
  by destruct (Z.eqb_spec (occurrences k (drawn draws)) 0) as [->|_].
Qed.

(** X2. The Simple strategy gives a number the score [float(c)] where [c]
    is the number of readable ball cells of the sequence that show it, and
    no entry to a number that no cell shows. *)
Theorem simple_score_is_occurrences (draws : list Row) (k : Z) :
  Py.get k (SimpleFrequencyStrategy.calculate draws)
  = if (occurrences k (drawn draws) =? 0)%Z then None
    else Some (IZR (occurrences k (drawn draws))).
Proof. apply get_simple_calculate. Qed.

(** ** The keys of a score map *)

Lemma elem_of_add_key k n keys : k ∈ add_key keys n ↔ k ∈ keys ∨ k = n.
Proof.
  unfold add_key. destruct (decide (n ∈ keys)) as [Hin|Hnin].
  - split; [by left | intros [?| ->]; done].
  - rewrite elem_of_app, list_elem_of_singleton. done.
Qed.

Lemma NoDup_add_key n keys : NoDup keys → NoDup (add_key keys n).
Proof.
  intros Hkeys. unfold add_key. destruct (decide (n ∈ keys)); [done|].
  apply NoDup_app. split; [done|]. split; [|apply NoDup_singleton].
  intros k Hk ->%list_elem_of_singleton. done.
Qed.

Lemma fold_add_key numbers keys :
  NoDup keys →
  NoDup (fold_left add_key numbers keys)
  ∧ ∀ k, k ∈ fold_left add_key numbers keys ↔ k ∈ keys ∨ k ∈ numbers.
Proof.
  revert keys. induction numbers as [|n numbers IH]; intros keys Hkeys; simpl.
  - split; [done|]. intros k. rewrite elem_of_nil. tauto.
  - destruct (IH (add_key keys n) (NoDup_add_key n keys Hkeys)) as [Hnd Hin].
    split; [done|]. intros k.
    rewrite Hin, elem_of_add_key, elem_of_cons. tauto.
Qed.

Lemma get_None_keys {V : Type} k (d : list (Z * V)) :
  Py.get k d = None ↔ k ∉ map fst d.
Proof.
  induction d as [|[k' v'] d IH]; simpl.
  - split; [intros _; apply not_elem_of_nil | done].
  - rewrite not_elem_of_cons. destruct (Z.eqb_spec k k') as [->|Hne].
    + split; [done | intros [? _]; done].
    + rewrite IH. tauto.
Qed.

Lemma keys_simple_calculate (draws : list Row) :
  map fst (SimpleFrequencyStrategy.calculate draws) = first_seen (drawn draws).
Proof.
  unfold SimpleFrequencyStrategy.calculate.
  by rewrite keys_to_scores, count_draws_numbers, keys_fold_numbers.
Qed.

(** X3. The keys of the Simple score map are the numbers that the readable
    cells show, each once, in the order in which the sequence first shows
    them. *)
Theorem simple_keys_first_seen (draws : list Row) :
  map fst (SimpleFrequencyStrategy.calculate draws) = first_seen (drawn draws)
  ∧ NoDup (map fst (SimpleFrequencyStrategy.calculate draws))
  ∧ ∀ k, k ∈ map fst (SimpleFrequencyStrategy.calculate draws)
         ↔ k ∈ drawn draws.
Proof.
  rewrite keys_simple_calculate. split; [done|].
  destruct (fold_add_key (drawn draws) [] NoDup_nil_2) as [Hnd Hin].
  split; [done|]. intros k. unfold first_seen. rewrite Hin, elem_of_nil. tauto.
Qed.

Lemma drawn_app draws draws' :
  drawn (draws ++ draws') = drawn draws ++ drawn draws'.
Proof. unfold drawn. by rewrite map_app, concat_app. Qed.

(** X4. Simple scores add up over a split of the sequence: the score of a
    number in [draws ++ draws'] is its score in [draws] plus its score in
    [draws'], a missing entry counting as 0. *)
Theorem simple_scores_additive (draws draws' : list Row) (k : Z) :
  default 0%R (Py.get k (SimpleFrequencyStrategy.calculate (draws ++ draws')))
  = (default 0%R (Py.get k (SimpleFrequencyStrategy.calculate draws))
     + default 0%R (Py.get k (SimpleFrequencyStrategy.calculate draws')))%R.
Proof.
  rewrite !simple_score_default, drawn_app, occurrences_app.
  apply plus_IZR.
Qed.

(** ** What the Weighted strategy adds up *)

Lemma add_row_numbers weight (scores : ScoreMap) (row : Row) :
  WeightedFrequencyStrategy.add_row weight scores row
  = fold_left (λ scores number, Py.add_to 0%R Rplus number weight scores)
      (MegaSenaDataLoader.extract_numbers row) scores.
Proof.
  unfold WeightedFrequencyStrategy.add_row.
  rewrite fold_columns_numbers. by rewrite extract_numbers_omap.
Qed.

Lemma keys_weighted_fold self total_draws draws (i : Z) (scores : ScoreMap) :
  map fst
    (fold_left
       (λ weighted_scores '(draw_index, row),
          let weight :=
            WeightedFrequencyStrategy._calculate_weight self
              (WeightedFrequencyStrategy.position total_draws draw_index) in
          WeightedFrequencyStrategy.add_row weight weighted_scores row)
       (Py.enumerate_from i draws) scores)
  = fold_left add_key (drawn draws) (map fst scores).
Proof.
  revert i scores. unfold drawn.
  induction draws as [|row draws IH]; intros i scores; simpl; [done|].
  by rewrite IH, fold_left_app, add_row_numbers, keys_fold_numbers.
Qed.

(** The same loop over binary64 scores. *)
Lemma add_row64_numbers weight (scores : list (Z * float)) (row : Row) :
  Binary64.add_row weight scores row
  = fold_left
      (λ scores number, Py.add_to 0%float PrimFloat.add number weight scores)
      (MegaSenaDataLoader.extract_numbers row) scores.
Proof.
  unfold Binary64.add_row.
  rewrite fold_columns_numbers. by rewrite extract_numbers_omap.
Qed.

Lemma keys_calculate_from math_exp self total_draws draws (i : Z)
    (scores scores' : list (Z * float)) :
  Binary64.calculate_from math_exp self total_draws scores
    (Py.enumerate_from i draws)
  = Ok scores' →
  map fst scores' = fold_left add_key (drawn draws) (map fst scores).
Proof.
  revert i scores. unfold drawn.
  induction draws as [|row draws IH]; intros i scores;
    cbn [Py.enumerate_from Binary64.calculate_from].
  - by intros [= <-].
  - destruct (Binary64._calculate_weight _ _ _) as [w|]; [|done].
    unfold mbind, Py.result_bind. intros Hrest%IH.
    rewrite Hrest, add_row64_numbers, keys_fold_numbers. simpl.
    by rewrite fold_left_app.
Qed.

(** X5. Whenever the Weighted strategy returns a score map, in any mode
    and with any decay factor, the map has entries for the same numbers as
    that of the Simple strategy and in the same order; in mode
    ['recent_linear'] it always returns one; and so it is in exact
    arithmetic, where it always returns one. *)
Theorem weighted_keys_as_simple (draws : list Row) :
  (∀ (math_exp : float → Py.result float) (self : Binary64.t)
     (scores : list (Z * float)),
     Binary64.calculate math_exp self draws = Ok scores →
     map fst scores = map fst (SimpleFrequencyStrategy.calculate draws))
  ∧ (∀ (math_exp : float → Py.result float) (decay : float),
       ∃ scores,
         Binary64.calculate math_exp
           {| Binary64.weight_mode := "recent_linear";
              Binary64.decay_factor := decay |} draws
         = Ok scores)
  ∧ (∀ self : WeightedFrequencyStrategy.t,
       map fst (WeightedFrequencyStrategy.calculate self draws)
       = map fst (SimpleFrequencyStrategy.calculate draws)).
Proof.
  rewrite keys_simple_calculate. split; [|split].
  - intros math_exp self scores Hscores.
    by apply keys_calculate_from in Hscores.
  - intros math_exp decay. by apply calculate_from_linear.
  - intros self. unfold WeightedFrequencyStrategy.calculate, Py.enumerate.
    by rewrite keys_weighted_fold.
Qed.

(** ** The Weighted score of a number, in binary64 arithmetic *)

Lemma added_app adds adds' score :
  added (adds ++ adds') score = added adds' (added adds score).
Proof.
  destruct adds as [|a adds]; [done|].
  destruct adds' as [|a' adds']; [by rewrite app_nil_r|].
  simpl. by rewrite fold_left_app.
Qed.

Lemma occurrences_zero k numbers : occurrences k numbers = 0%Z ↔ k ∉ numbers.
Proof.
  induction numbers as [|n numbers IH].
  - split; [intros _; apply not_elem_of_nil | done].
  - rewrite occurrences_cons, not_elem_of_cons.
    pose proof (occurrences_nonneg k numbers).
    destruct (Z.eqb_spec k n) as [->|Hne].
    + split; [lia | by intros [? _]].
    + rewrite <- IH. split; [intros ?; split; [done|lia] | intros [_ ?]; lia].
Qed.

(** One draw: the weight is added once for each cell that shows [k]. *)
Lemma get_add_numbers64 k weight (numbers : list Z)
    (scores : list (Z * float)) :
  Py.get k
    (fold_left
       (λ scores number, Py.add_to 0%float PrimFloat.add number weight scores)
       numbers scores)
  = added (replicate (Z.to_nat (occurrences k numbers)) weight)
      (Py.get k scores).
Proof.
  revert scores.
  induction numbers as [|n numbers IH]; intros scores; simpl; [done|].
  rewrite IH, get_add_to, occurrences_cons.
  pose proof (occurrences_nonneg k numbers).
  destruct (Z.eqb_spec k n) as [->|Hne].
  - replace (Z.to_nat (1 + occurrences n numbers))
      with (S (Z.to_nat (occurrences n numbers))) by lia.
    change (replicate (S ?j) weight) with ([weight] ++ replicate j weight).
    by rewrite added_app.
  - done.
Qed.

Lemma calculate_from_additions math_exp self total_draws draws (i : Z)
    (scores scores' : list (Z * float)) :
  Binary64.calculate_from math_exp self total_draws scores
    (Py.enumerate_from i draws)
  = Ok scores' →
  ∃ weights : list float,
    length weights = length draws
    ∧ (∀ (j : nat) w,
         weights !! j = Some w →
         Binary64._calculate_weight math_exp self
           (Binary64.position total_draws (i + Z.of_nat j))
         = Ok w)
    ∧ ∀ k, Py.get k scores'
           = added (additions k (zip weights draws)) (Py.get k scores).
Proof.
  revert i scores.
  induction draws as [|row draws IH]; intros i scores;
    cbn [Py.enumerate_from Binary64.calculate_from].
  - intros [= <-]. exists []. split; [done|]. split; [|done].
    intros j w. by rewrite lookup_nil.
  - destruct (Binary64._calculate_weight _ _ _) as [w|] eqn:Hw; [|done].
    unfold mbind, Py.result_bind.
    intros (weights & Hlen & Hweights & Hget)%IH.
    exists (w :: weights). split; [simpl; by rewrite Hlen|]. split.
    + intros [|j] w'; simpl.
      * intros [= <-]. by rewrite Z.add_0_r.
      * intros Hj. rewrite <- (Hweights j w' Hj). do 2 f_equal. lia.
    + intros k. rewrite Hget, add_row64_numbers, get_add_numbers64.
      cbn [zip zip_with additions flat_map]. by rewrite added_app.
Qed.

Lemma additions_nil k weights draws :
  length weights = length draws →
  additions k (zip weights draws) = [] ↔ k ∉ drawn draws.
Proof.
  revert weights. unfold drawn.
  induction draws as [|row draws IH]; intros [|w weights] Hlen; try done.
  - split; [intros _; apply not_elem_of_nil | done].
  - cbn [zip zip_with additions flat_map map concat].
    rewrite not_elem_of_app, <- occurrences_zero.
    pose proof (occurrences_nonneg k (MegaSenaDataLoader.extract_numbers row)).
    fold (additions k (zip weights draws)).
    rewrite <- (IH weights) by (simpl in Hlen; lia).
    split.
    + intros [Hrep Hrest]%app_eq_nil. split; [|done].
      apply (f_equal length) in Hrep. rewrite length_replicate in Hrep.
      simpl in Hrep. lia.
    + intros [-> ->]. done.
Qed.

(** X27. Whenever the Weighted strategy returns a score map, every draw
    has got a weight from [_calculate_weight], at its position
    [index / (total - 1)], and a number that no readable cell shows has no
    entry, while the score of a number that some cell shows is the float sum
    of the weights of the cells that show it, added one after the other to
    [0.0] in the order of the draws. *)
Theorem weighted_score_is_float_sum
    (math_exp : float → Py.result float) (self : Binary64.t)
    (draws : list Row) (scores : list (Z * float)) :
  Binary64.calculate math_exp self draws = Ok scores →
  ∃ weights : list float,
    length weights = length draws
    ∧ (∀ (i : nat) w,
         weights !! i = Some w →
         Binary64._calculate_weight math_exp self
           (Binary64.position (Py.len draws) (Z.of_nat i))
         = Ok w)
    ∧ ∀ k,
        (k ∉ drawn draws → Py.get k scores = None)
        ∧ (k ∈ drawn draws →
           Py.get k scores
           = Some (fold_left PrimFloat.add
                     (additions k (zip weights draws)) 0%float)).
Proof.
  intros (weights & Hlen & Hweights & Hget)%calculate_from_additions.
  exists weights. split; [done|]. split; [exact Hweights|].
  intros k. rewrite Hget. split.
  - intros Hk%(additions_nil k weights draws Hlen). by rewrite Hk.
  - intros Hk. destruct (additions k (zip weights draws)) as [|a adds] eqn:Ha.
    + by apply (additions_nil k weights draws Hlen) in Ha.
    + done.
Qed.

Lemma weighted_score_is_float_sum_witness :
  ∃ (scores : list (Z * float)) (weights : list float),
    Binary64.calculate (λ _, Raise OverflowError)
      {| Binary64.weight_mode := "recent_linear";
         Binary64.decay_factor := 2 |} sample_draws
    = Ok scores
    ∧ length weights = 3%nat
    ∧ Py.get 5 scores
      = Some (fold_left PrimFloat.add
                (additions 5 (zip weights sample_draws)) 0%float).
Proof.
  destruct (calculate_from_linear (λ _, Raise OverflowError)
              {| Binary64.weight_mode := "recent_linear";
                 Binary64.decay_factor := 2 |}
              (Py.len sample_draws) (Py.enumerate sample_draws) [] eq_refl)
    as [scores Hscores].
  destruct (weighted_score_is_float_sum (λ _, Raise OverflowError)
              {| Binary64.weight_mode := "recent_linear";
                 Binary64.decay_factor := 2 |} sample_draws scores Hscores)
    as (weights & Hlen & _ & Hget).
  exists scores, weights. split; [exact Hscores|]. split; [exact Hlen|].
  apply Hget. apply (bool_decide_unpack _). vm_compute. exact I.
Defined.

(** ** The Weighted score of a number, in exact arithmetic *)

Lemma get_add_numbers k weight (numbers : list Z) (scores : ScoreMap) :
  default 0%R
    (Py.get k
       (fold_left (λ scores number, Py.add_to 0%R Rplus number weight scores)
          numbers scores))
  = (default 0%R (Py.get k scores)
     + weight * IZR (occurrences k numbers))%R.
Proof.
  revert scores.
  induction numbers as [|n numbers IH]; intros scores; simpl.
  - change (occurrences k []) with 0%Z. lra.
  - rewrite IH, get_add_to, occurrences_cons, plus_IZR.
    destruct (Z.eqb_spec k n) as [->|Hne]; simpl; lra.
Qed.

Lemma get_weighted_fold self total_draws draws (i : Z) (scores : ScoreMap) k :
  default 0%R
    (Py.get k
       (fold_left
          (λ weighted_scores '(draw_index, row),
             let weight :=
               WeightedFrequencyStrategy._calculate_weight self
                 (WeightedFrequencyStrategy.position total_draws draw_index) in
             WeightedFrequencyStrategy.add_row weight weighted_scores row)
          (Py.enumerate_from i draws) scores))
  = (default 0%R (Py.get k scores)
     + weighted_occurrences
         (λ j, WeightedFrequencyStrategy._calculate_weight self
                 (WeightedFrequencyStrategy.position total_draws j))
         i draws k)%R.
Proof.
  revert i scores.
  induction draws as [|row draws IH]; intros i scores; simpl; [lra|].
  rewrite IH, add_row_numbers, get_add_numbers. lra.
Qed.

Lemma get_weighted_calculate self draws k :
  default 0%R (Py.get k (WeightedFrequencyStrategy.calculate self draws))
  = weighted_occurrences
      (λ i, WeightedFrequencyStrategy._calculate_weight self
              (WeightedFrequencyStrategy.position (Py.len draws) i))
      0 draws k.
Proof.
  unfold WeightedFrequencyStrategy.calculate, Py.enumerate.
  rewrite get_weighted_fold. simpl. lra.
Qed.

(** X6. In exact arithmetic the Weighted score of a number is the sum,
    over the draws, of the weight of the draw's position times the number
    of readable cells of the draw that show the number. *)
Theorem weighted_score_is_weighted_occurrences
    (self : WeightedFrequencyStrategy.t) (draws : list Row) (k : Z) :
  default 0%R (Py.get k (WeightedFrequencyStrategy.calculate self draws))
  = weighted_occurrences
      (λ i, WeightedFrequencyStrategy._calculate_weight self
              (WeightedFrequencyStrategy.position (Py.len draws) i))
      0 draws k.
Proof. apply get_weighted_calculate. Qed.

(** ** Weights between 0 and 1 *)

Lemma exp_quotient a d : (exp a / exp d)%R = exp (a - d).
Proof. unfold Rdiv, Rminus. by rewrite exp_plus, exp_Ropp. Qed.

Lemma exp_le_1 x : (x <= 0)%R → (exp x <= 1)%R.
Proof.
  intros [Hlt| ->].
  - left. rewrite <- exp_0. by apply exp_increasing.
  - rewrite exp_0. lra.
Qed.

Lemma weight_le_1 (self : WeightedFrequencyStrategy.t) (p : R) :
  WeightedFrequencyStrategy.weight_mode self = "recent_linear"
  ∨ (0 <= WeightedFrequencyStrategy.decay_factor self)%R →
  (0 <= p <= 1)%R →
  (WeightedFrequencyStrategy._calculate_weight self p <= 1)%R.
Proof.
  intros Hself Hp. unfold WeightedFrequencyStrategy._calculate_weight.
  destruct (String.eqb_spec
              (WeightedFrequencyStrategy.weight_mode self) "recent_more")
    as [Hmore|_].
  - destruct Hself as [Hlinear|Hdecay]; [congruence|].
    rewrite exp_quotient. apply exp_le_1. nra.
  - destruct (String.eqb_spec
                (WeightedFrequencyStrategy.weight_mode self) "recent_linear")
      as [_|Hlinear].
    + lra.
    + destruct Hself as [?|Hdecay]; [done|].
      rewrite exp_quotient. apply exp_le_1. nra.
Qed.

Lemma position_le_1 total_draws draw_index :
  (draw_index < total_draws)%Z →
  (WeightedFrequencyStrategy.position total_draws draw_index <= 1)%R.
Proof.
  intros Hi. unfold WeightedFrequencyStrategy.position.
  destruct (Z.ltb_spec 1 total_draws) as [Htotal|_]; [|lra].
  assert (0 < IZR (total_draws - 1))%R as Hpos by (apply (IZR_lt 0); lia).
  assert (IZR draw_index <= IZR (total_draws - 1))%R as Hle
    by (apply IZR_le; lia).
  unfold Rdiv.
  rewrite <- (Rinv_r (IZR (total_draws - 1))) by lra.
  apply Rmult_le_compat_r; [|done].
  left. by apply Rinv_0_lt_compat.
Qed.

Lemma len_cons {A : Type} (x : A) (l : list A) :
  Py.len (x :: l) = (1 + Py.len l)%Z.
Proof. unfold Py.len. simpl length. lia. Qed.

Lemma weighted_occurrences_bounds (weight_at : Z → R) (i : Z)
    (draws : list Row) (k : Z) :
  (∀ j, (i ≤ j < i + Py.len draws)%Z → (0 <= weight_at j <= 1)%R) →
  (0 <= weighted_occurrences weight_at i draws k
   <= IZR (occurrences k (drawn draws)))%R.
Proof.
  revert i. induction draws as [|row draws IH]; intros i Hweights.
  - simpl. change (occurrences k (drawn [])) with 0%Z. lra.
  - change (drawn (row :: draws))
      with (MegaSenaDataLoader.extract_numbers row ++ drawn draws).
    rewrite occurrences_app, plus_IZR. simpl.
    rewrite len_cons in Hweights.
    assert (0 <= weight_at i <= 1)%R as Hw
      by (apply Hweights; unfold Py.len; lia).
    assert (0 <= IZR (occurrences k (MegaSenaDataLoader.extract_numbers row)))%R
      as Hocc by (apply (IZR_le 0), occurrences_nonneg).
    specialize (IH (i + 1)%Z).
    assert (0 <= weighted_occurrences weight_at (i + 1) draws k
            <= IZR (occurrences k (drawn draws)))%R as Hrest
      by (apply IH; intros j Hj; apply Hweights; lia).
    nra.
Qed.

(** X7. In mode ['recent_linear'], and in any mode with a decay factor that
    is not negative, the Weighted score of a number lies between 0 and its
    Simple score. *)
Theorem weighted_score_le_simple
    (self : WeightedFrequencyStrategy.t) (draws : list Row) (k : Z) :
  WeightedFrequencyStrategy.weight_mode self = "recent_linear"
  ∨ (0 <= WeightedFrequencyStrategy.decay_factor self)%R →
  (0 <= default 0 (Py.get k (WeightedFrequencyStrategy.calculate self draws))
   <= default 0 (Py.get k (SimpleFrequencyStrategy.calculate draws)))%R.
Proof.
  intros Hself.
  rewrite get_weighted_calculate, simple_score_default.
  apply weighted_occurrences_bounds. intros j Hj.
  assert (0 <= WeightedFrequencyStrategy.position (Py.len draws) j)%R
    by (apply position_nonneg; lia).
  assert (WeightedFrequencyStrategy.position (Py.len draws) j <= 1)%R
    by (apply position_le_1; lia).
  split; [by apply weight_nonneg | by apply weight_le_1].
Qed.

Lemma weighted_score_le_simple_witness :
  (0 <= default 0
          (Py.get 10
             (WeightedFrequencyStrategy.calculate
                {| WeightedFrequencyStrategy.weight_mode := "recent_more";
                   WeightedFrequencyStrategy.decay_factor := 2 |}
                sample_draws))
   <= default 0 (Py.get 10 (SimpleFrequencyStrategy.calculate sample_draws)))%R.
Proof.
  apply (weighted_score_le_simple
           {| WeightedFrequencyStrategy.weight_mode := "recent_more";
              WeightedFrequencyStrategy.decay_factor := 2 |}
           sample_draws 10).
  right. simpl. lra.
Defined.

(** ** A decay factor of zero *)

Lemma to_scores_set k v (counter : Counter) :
  to_scores (Py.set k v counter) = Py.set k (Py.float v) (to_scores counter).
Proof.
  induction counter as [|[k0 c0] counter IH]; simpl; [done|].
  destruct (k =? k0)%Z; simpl; [done|]. by rewrite IH.
Qed.

Lemma add_one_to_scores n (counter : Counter) :
  Py.add_to 0%R Rplus n 1%R (to_scores counter)
  = to_scores (Py.add_to 0%Z Z.add n 1%Z counter).
Proof.
  unfold Py.add_to. rewrite to_scores_set, get_to_scores. f_equal.
  unfold Py.float.
  destruct (Py.get n counter) as [c|];
    cbn [fmap option_fmap option_map default from_option];
    unfold Datatypes.id; rewrite plus_IZR; lra.
Qed.

Lemma add_numbers_one (numbers : list Z) (counter : Counter) :
  fold_left (λ scores number, Py.add_to 0%R Rplus number 1%R scores)
    numbers (to_scores counter)
  = to_scores
      (fold_left (λ counter number, Py.add_to 0%Z Z.add number 1%Z counter)
         numbers counter).
Proof.
  revert counter.
  induction numbers as [|n numbers IH]; intros counter; simpl; [done|].
  by rewrite add_one_to_scores, IH.
Qed.

Lemma count_row_numbers (counter : Counter) (row : Row) :
  SimpleFrequencyStrategy.count_row counter row
  = fold_left (λ counter number, Py.add_to 0%Z Z.add number 1%Z counter)
      (MegaSenaDataLoader.extract_numbers row) counter.
Proof.
  unfold SimpleFrequencyStrategy.count_row.
  rewrite fold_columns_numbers. by rewrite extract_numbers_omap.
Qed.

Lemma weighted_fold_unit_weight self total_draws draws (i : Z)
    (counter : Counter) :
  (∀ p, WeightedFrequencyStrategy._calculate_weight self p = 1%R) →
  fold_left
    (λ weighted_scores '(draw_index, row),
       let weight :=
         WeightedFrequencyStrategy._calculate_weight self
           (WeightedFrequencyStrategy.position total_draws draw_index) in
       WeightedFrequencyStrategy.add_row weight weighted_scores row)
    (Py.enumerate_from i draws) (to_scores counter)
  = to_scores (fold_left SimpleFrequencyStrategy.count_row draws counter).
Proof.
  intros Hunit. revert i counter.
  induction draws as [|row draws IH]; intros i counter; simpl; [done|].
  by rewrite Hunit, add_row_numbers, add_numbers_one, <- count_row_numbers, IH.
Qed.

Lemma weight_decay_zero (mode : string) (p : R) :
  mode ≠ "recent_linear" →
  WeightedFrequencyStrategy._calculate_weight
    {| WeightedFrequencyStrategy.weight_mode := mode;
       WeightedFrequencyStrategy.decay_factor := 0 |} p
  = 1%R.
Proof.
  intros Hmode. apply String.eqb_neq in Hmode.
  unfold WeightedFrequencyStrategy._calculate_weight. simpl. rewrite Hmode.
  destruct (mode =? "recent_more")%string;
    rewrite Rmult_0_l, exp_0; lra.
Qed.

(** X8. With decay factor 0 every exponential mode (every mode but
    ['recent_linear']) weighs all draws 1, and the Weighted strategy returns
    exactly the score map of the Simple strategy. *)
Theorem weighted_decay_zero_is_simple (mode : string) (draws : list Row) :
  mode ≠ "recent_linear" →
  WeightedFrequencyStrategy.calculate
    {| WeightedFrequencyStrategy.weight_mode := mode;
       WeightedFrequencyStrategy.decay_factor := 0 |} draws
  = SimpleFrequencyStrategy.calculate draws.
Proof.
  intros Hmode.
  unfold WeightedFrequencyStrategy.calculate, Py.enumerate.
  change (@nil (Z * R)) with (to_scores []).
  apply weighted_fold_unit_weight. intros p. by apply weight_decay_zero.
Qed.

Lemma weighted_decay_zero_is_simple_witness :
  WeightedFrequencyStrategy.calculate
    {| WeightedFrequencyStrategy.weight_mode := "recent_more";
       WeightedFrequencyStrategy.decay_factor := 0 |} sample_draws
  = SimpleFrequencyStrategy.calculate sample_draws.
Proof.
  apply (weighted_decay_zero_is_simple "recent_more" sample_draws).
  discriminate.
Defined.

(** ** The exponential weights *)

(** X9. The older-more weight of a position is the recent-more weight of
    the mirrored position [1 - p]; the recent-more weight is 1 at position 1
    and the older-more weight is 1 at position 0; with a positive decay
    factor the recent-more weight strictly grows with the position and the
    older-more weight strictly falls. *)
Theorem exponential_weights_mirror (decay p q : R) :
  WeightedFrequencyStrategy._calculate_weight
    {| WeightedFrequencyStrategy.weight_mode := "recent_less";
       WeightedFrequencyStrategy.decay_factor := decay |} p
  = WeightedFrequencyStrategy._calculate_weight
      {| WeightedFrequencyStrategy.weight_mode := "recent_more";
         WeightedFrequencyStrategy.decay_factor := decay |} (1 - p)
  ∧ WeightedFrequencyStrategy._calculate_weight
      {| WeightedFrequencyStrategy.weight_mode := "recent_more";
         WeightedFrequencyStrategy.decay_factor := decay |} 1
    = 1%R
  ∧ WeightedFrequencyStrategy._calculate_weight
      {| WeightedFrequencyStrategy.weight_mode := "recent_less";
         WeightedFrequencyStrategy.decay_factor := decay |} 0
    = 1%R
  ∧ ((0 < decay)%R → (p < q)%R →
     (WeightedFrequencyStrategy._calculate_weight
        {| WeightedFrequencyStrategy.weight_mode := "recent_more";
           WeightedFrequencyStrategy.decay_factor := decay |} p
      < WeightedFrequencyStrategy._calculate_weight
          {| WeightedFrequencyStrategy.weight_mode := "recent_more";
             WeightedFrequencyStrategy.decay_factor := decay |} q)%R
     ∧ (WeightedFrequencyStrategy._calculate_weight
          {| WeightedFrequencyStrategy.weight_mode := "recent_less";
             WeightedFrequencyStrategy.decay_factor := decay |} q
        < WeightedFrequencyStrategy._calculate_weight
            {| WeightedFrequencyStrategy.weight_mode := "recent_less";
               WeightedFrequencyStrategy.decay_factor := decay |} p)%R).
Proof.
  unfold WeightedFrequencyStrategy._calculate_weight. simpl.
  rewrite !exp_quotient.
  split; [reflexivity|].
  split; [replace (decay * 1 - decay)%R with 0%R by lra; apply exp_0|].
  split; [replace (decay * (1 - 0) - decay)%R with 0%R by lra; apply exp_0|].
  intros Hdecay Hpq. split; apply exp_increasing; nra.
Qed.

Lemma exponential_weights_mirror_witness :
  (WeightedFrequencyStrategy._calculate_weight
     {| WeightedFrequencyStrategy.weight_mode := "recent_more";
        WeightedFrequencyStrategy.decay_factor := 2 |} 0
   < WeightedFrequencyStrategy._calculate_weight
       {| WeightedFrequencyStrategy.weight_mode := "recent_more";
          WeightedFrequencyStrategy.decay_factor := 2 |} 1)%R.
Proof.
  apply (exponential_weights_mirror 2 0 1); lra.
Defined.

(** ** The window of recent draws, in general *)

Lemma draws_mode_window (n_items : Z) (draws : list Row) :
  ∃ j : nat,
    (if (n_items <=? Py.len draws)%Z
     then Py.slice_from (- n_items) draws
     else draws)
    = drop j draws.
Proof.
  destruct (n_items <=? Py.len draws)%Z; [|by exists 0%nat].
  unfold Py.slice_from. destruct (- n_items <? 0)%Z; eauto.
Qed.

(** X10. In draws mode with [1 <= n_items <= len(draws)] the Recent-only
    strategy returns the Simple score map of the last [n_items] draws. *)
Theorem recent_window_last_draws (n_items : Z) (draws : list Row) :
  (1 ≤ n_items ≤ Py.len draws)%Z →
  RecentOnlyStrategy.calculate
    {| RecentOnlyStrategy.n_items := n_items;
       RecentOnlyStrategy.mode := "draws" |} draws
  = Ok (SimpleFrequencyStrategy.calculate
          (drop (length draws - Z.to_nat n_items) draws))
  ∧ Py.len (drop (length draws - Z.to_nat n_items) draws) = n_items.
Proof.
  intros Hn. rewrite calculate_draws_mode. unfold Py.len in *.
  destruct (Z.leb_spec n_items (Z.of_nat (length draws))); [|lia].
  unfold Py.slice_from, Py.len.
  destruct (Z.ltb_spec (- n_items) 0); [|lia].
  replace (Z.to_nat (Z.max (Z.of_nat (length draws) + - n_items) 0))
    with (length draws - Z.to_nat n_items)%nat by lia.
  split; [done|]. rewrite length_drop. lia.
Qed.

Lemma recent_window_last_draws_witness :
  RecentOnlyStrategy.calculate
    {| RecentOnlyStrategy.n_items := 2;
       RecentOnlyStrategy.mode := "draws" |} sample_draws
  = Ok (SimpleFrequencyStrategy.calculate (drop 1 sample_draws)).
Proof.
  apply (recent_window_last_draws 2 sample_draws).
  vm_compute. split; discriminate.
Defined.

(** X11. In draws mode a negative [n_items] does not fail: the slice
    [draws[-n_items:]] then leaves out the first [-n_items] draws and the
    rest is counted, that is [len(draws) + n_items] draws when
    [-n_items < len(draws)], and none at all, with an empty score map, when
    [-n_items >= len(draws)]. *)
Theorem recent_window_negative_items (n_items : Z) (draws : list Row) :
  (n_items < 0)%Z →
  RecentOnlyStrategy.calculate
    {| RecentOnlyStrategy.n_items := n_items;
       RecentOnlyStrategy.mode := "draws" |} draws
  = Ok (SimpleFrequencyStrategy.calculate
          (drop (Z.to_nat (- n_items)) draws))
  ∧ Py.len (drop (Z.to_nat (- n_items)) draws)
    = Z.max 0 (Py.len draws + n_items)
  ∧ ((Py.len draws ≤ - n_items)%Z →
     RecentOnlyStrategy.calculate
       {| RecentOnlyStrategy.n_items := n_items;
          RecentOnlyStrategy.mode := "draws" |} draws
     = Ok []).
Proof.
  intros Hn.
  assert (RecentOnlyStrategy.calculate
            {| RecentOnlyStrategy.n_items := n_items;
               RecentOnlyStrategy.mode := "draws" |} draws
          = Ok (SimpleFrequencyStrategy.calculate
                  (drop (Z.to_nat (- n_items)) draws))) as Hcalc.
  { rewrite calculate_draws_mode. unfold Py.len.
    destruct (Z.leb_spec n_items (Z.of_nat (length draws))); [|lia].
    unfold Py.slice_from. by destruct (Z.ltb_spec (- n_items) 0); [lia|]. }
  split; [done|]. split.
  - unfold Py.len. rewrite length_drop. lia.
  - intros Hlen. rewrite Hcalc, drop_ge; [done|]. unfold Py.len in Hlen. lia.
Qed.

Lemma recent_window_negative_items_witness :
  RecentOnlyStrategy.calculate
    {| RecentOnlyStrategy.n_items := -1;
       RecentOnlyStrategy.mode := "draws" |} sample_draws
  = Ok (SimpleFrequencyStrategy.calculate (drop 1 sample_draws))
  ∧ RecentOnlyStrategy.calculate
      {| RecentOnlyStrategy.n_items := -3;
         RecentOnlyStrategy.mode := "draws" |} sample_draws
    = Ok [].
Proof.
  split.
  - apply (recent_window_negative_items (-1) sample_draws). lia.
  - apply (recent_window_negative_items (-3) sample_draws); [lia|].
    vm_compute. discriminate.
Defined.

Lemma occurrences_drop k (j : nat) (draws : list Row) :
  (occurrences k (drawn (drop j draws)) ≤ occurrences k (drawn draws))%Z.
Proof.
  rewrite <- (take_drop j draws) at 2. rewrite drawn_app, occurrences_app.
  pose proof (occurrences_nonneg k (drawn (take j draws))). lia.
Qed.

(** X12. In draws mode, whatever [n_items] is, the Recent-only strategy
    returns a score map, and in it no number scores more than in the Simple
    score map of the whole sequence. *)
Theorem recent_window_le_simple (n_items : Z) (draws : list Row) :
  ∃ scores,
    RecentOnlyStrategy.calculate
      {| RecentOnlyStrategy.n_items := n_items;
         RecentOnlyStrategy.mode := "draws" |} draws
    = Ok scores
    ∧ ∀ k, (0 <= default 0 (Py.get k scores)
            <= default 0
                 (Py.get k (SimpleFrequencyStrategy.calculate draws)))%R.
Proof.
  eexists. split; [apply calculate_draws_mode|]. intros k.
  destruct (draws_mode_window n_items draws) as [j ->].
  rewrite !simple_score_default. split.
  - apply (IZR_le 0), occurrences_nonneg.
  - apply IZR_le, occurrences_drop.
Qed.

(** ** The window of recent years, in general *)

Lemma year_Ok_truthy date y :
  RecentOnlyStrategy.year date = Ok y → Py.truthy date = true.
Proof. by destruct date. Qed.

Lemma rows_since_filter (cutoff_year : Z) (draws : list Row) :
  forallb date_reads draws = true →
  RecentOnlyStrategy.rows_since cutoff_year draws
  = Ok (List.filter (dated_since cutoff_year) draws).
Proof.
  induction draws as [|row draws IH]; [done|].
  cbn [forallb]. intros [Hrow Hdraws]%andb_true_iff.
  cbn [RecentOnlyStrategy.rows_since List.filter].
  rewrite (IH Hdraws). unfold dated_since, date_reads in *.
  fold (date_of row).
  destruct (Py.truthy (date_of row)) eqn:Htruthy; [|done].
  destruct (RecentOnlyStrategy.year (date_of row)) as [y|e]; [|done].
  cbn. by destruct (cutoff_year <=? y)%Z.
Qed.

Lemma years_mode_recent_draws (self : RecentOnlyStrategy.t)
    (earlier : list Row) (last_row : Row) (y : Z) :
  RecentOnlyStrategy.mode self ≠ "draws" →
  forallb date_reads (earlier ++ [last_row]) = true →
  RecentOnlyStrategy.year (date_of last_row) = Ok y →
  RecentOnlyStrategy.recent_draws self (earlier ++ [last_row])
  = Ok (List.filter
          (dated_since (y - RecentOnlyStrategy.n_items self + 1))
          (earlier ++ [last_row])).
Proof.
  intros Hmode%String.eqb_neq Hreads Hyear.
  unfold RecentOnlyStrategy.recent_draws. rewrite Hmode, last_last.
  fold (date_of last_row).
  rewrite (year_Ok_truthy _ _ Hyear), Hyear.
  destruct (earlier ++ [last_row]) eqn:Hdraws;
    [by destruct earlier|].
  unfold mbind, Py.result_bind. by apply rows_since_filter.
Qed.

(** X13. In years mode, when the last record has a date with a readable
    year [y] and every record either has no date or has one with a readable
    year, [calculate] does not raise: it returns the Simple score map of the
    dated records of year [y - n_items + 1] or later. *)
Theorem years_mode_counts_recent_years (self : RecentOnlyStrategy.t)
    (earlier : list Row) (last_row : Row) (y : Z) :
  RecentOnlyStrategy.mode self ≠ "draws" →
  forallb date_reads (earlier ++ [last_row]) = true →
  RecentOnlyStrategy.year (date_of last_row) = Ok y →
  RecentOnlyStrategy.calculate self (earlier ++ [last_row])
  = Ok (SimpleFrequencyStrategy.calculate
          (List.filter
             (dated_since (y - RecentOnlyStrategy.n_items self + 1))
             (earlier ++ [last_row]))).
Proof.
  intros Hmode Hreads Hyear. apply calculate_of_recent_draws.
  by apply years_mode_recent_draws.
Qed.

Lemma years_mode_counts_recent_years_witness :
  RecentOnlyStrategy.calculate
    {| RecentOnlyStrategy.n_items := 1;
       RecentOnlyStrategy.mode := "years" |} sample_draws
  = Ok (SimpleFrequencyStrategy.calculate
          (List.filter (dated_since (1996 - 1 + 1)) sample_draws)).
Proof.
  apply (years_mode_counts_recent_years
           {| RecentOnlyStrategy.n_items := 1;
              RecentOnlyStrategy.mode := "years" |}
           (take 2 sample_draws)
           (draw "3" "25/03/1996" "10" "20" "30" "35" "45" "55") 1996).
  - simpl. discriminate.
  - vm_compute. reflexivity.
  - vm_compute. reflexivity.
Defined.

Lemma filter_none {A : Type} (f : A → bool) (l : list A) :
  (∀ x, x ∈ l → f x = false) → List.filter f l = [].
Proof.
  induction l as [|x l IH]; intros Hl; simpl; [done|].
  rewrite (Hl x) by left. apply IH. intros x' Hx'. apply Hl. by right.
Qed.

(** X14. In years mode with [n_items <= 0], when the dates read and no
    record is dated after the last one, no record is of the cutoff year or
    later, the last record included: [calculate] returns the empty map
    (where draws mode with [n_items = 0] counts the whole sequence). *)
Theorem years_mode_no_years (self : RecentOnlyStrategy.t)
    (earlier : list Row) (last_row : Row) (y : Z) :
  RecentOnlyStrategy.mode self ≠ "draws" →
  (RecentOnlyStrategy.n_items self ≤ 0)%Z →
  forallb date_reads (earlier ++ [last_row]) = true →
  RecentOnlyStrategy.year (date_of last_row) = Ok y →
  forallb (dated_until y) (earlier ++ [last_row]) = true →
  RecentOnlyStrategy.calculate self (earlier ++ [last_row]) = Ok [].
Proof.
  intros Hmode Hn Hreads Hyear Huntil.
  rewrite (calculate_of_recent_draws self _ _
             (years_mode_recent_draws self earlier last_row y
                Hmode Hreads Hyear)).
  rewrite filter_none; [done|].
  intros row Hrow%list_elem_of_In.
  rewrite forallb_forall in Huntil. specialize (Huntil row Hrow).
  unfold dated_since, dated_until in *.
  destruct (RecentOnlyStrategy.year (date_of row)) as [y'|e];
    [|by rewrite andb_false_r].
  apply andb_false_iff. right. lia.
Qed.

Lemma years_mode_no_years_witness :
  RecentOnlyStrategy.calculate
    {| RecentOnlyStrategy.n_items := 0;
       RecentOnlyStrategy.mode := "years" |} sample_draws
  = Ok [].
Proof.
  apply (years_mode_no_years
           {| RecentOnlyStrategy.n_items := 0;
              RecentOnlyStrategy.mode := "years" |}
           (take 2 sample_draws)
           (draw "3" "25/03/1996" "10" "20" "30" "35" "45" "55") 1996).
  - simpl. discriminate.
  - simpl. lia.
  - vm_compute. reflexivity.
  - vm_compute. reflexivity.
  - vm_compute. reflexivity.
Defined.

(** ** The ranking as a selection *)

Lemma ranking_descending (frequencies : ScoreMap) :
  StronglySorted (λ a b, (b.2 <= a.2)%R)
    (Py.sorted Py.Rltb snd true frequencies).
Proof.
  eapply StronglySorted_weaken;
    [|apply sorted_StronglySorted; [apply Rltb_asym | apply Rltb_negtrans]].
  intros a b. unfold Py.moves_past. by rewrite Rltb_false.
Qed.

Lemma StronglySorted_take_drop {A : Type} (R : A → A → Prop) (l : list A)
    (j : nat) (a b : A) :
  StronglySorted R l → a ∈ take j l → b ∈ drop j l → R a b.
Proof.
  intros Hl Ha Hb. rewrite <- (take_drop j l) in Hl.
  by apply (StronglySorted_app_1_elem_of R (take j l) (drop j l)).
Qed.

(** X15. [get_top_numbers] returns entries of the score map, none twice
    over, that score at least as much as every entry it leaves out; with
    [n >= len(frequencies)] it leaves none out. *)
Theorem top_numbers_are_the_best (frequencies : ScoreMap) (n : Z) :
  ∃ rest,
    FrequencyCalculator.get_top_numbers frequencies n ++ rest ≡ₚ frequencies
    ∧ (∀ a b,
         a ∈ FrequencyCalculator.get_top_numbers frequencies n →
         b ∈ rest → (b.2 <= a.2)%R)
    ∧ ((Py.len frequencies ≤ n)%Z → rest = []).
Proof.
  unfold FrequencyCalculator.get_top_numbers.
  pose proof (ranking_descending frequencies) as Hsorted.
  pose proof (sorted_Permutation Py.Rltb snd true frequencies) as Hperm.
  pose proof (length_sorted Py.Rltb snd true frequencies) as Hlen.
  set (ranking := Py.sorted Py.Rltb snd true frequencies) in *.
  unfold Py.slice_to.
  destruct (n <? 0)%Z eqn:Hn.
  - exists (drop (Z.to_nat (Z.max (Py.len ranking + n) 0)) ranking).
    rewrite take_drop. split; [done|]. split.
    + intros a b Ha Hb.
      exact (StronglySorted_take_drop (λ a b : Z * R, (b.2 <= a.2)%R)
               ranking _ a b Hsorted Ha Hb).
    + unfold Py.len. lia.
  - exists (drop (Z.to_nat n) ranking).
    rewrite take_drop. split; [done|]. split.
    + intros a b Ha Hb.
      exact (StronglySorted_take_drop (λ a b : Z * R, (b.2 <= a.2)%R)
               ranking _ a b Hsorted Ha Hb).
    + unfold Py.len. intros Hge. apply drop_ge. lia.
Qed.

(** X16. With a negative [n] the slice [sorted_items[:n]] is not empty in
    general: [get_top_numbers] then returns the ranking without its last
    [-n] entries, [max(0, len(frequencies) + n)] entries in all. *)
Theorem top_numbers_negative_n (frequencies : ScoreMap) (n : Z) :
  (n < 0)%Z →
  Py.len (FrequencyCalculator.get_top_numbers frequencies n)
  = Z.max 0 (Py.len frequencies + n).
Proof.
  intros Hn. unfold FrequencyCalculator.get_top_numbers, Py.slice_to.
  destruct (Z.ltb_spec n 0); [|lia].
  unfold Py.len. rewrite length_take, !length_sorted. lia.
Qed.

Lemma top_numbers_negative_n_witness :
  Py.len (FrequencyCalculator.get_top_numbers
            (SimpleFrequencyStrategy.calculate sample_draws) (-2))
  = Z.max 0 (Py.len (SimpleFrequencyStrategy.calculate sample_draws) + -2).
Proof.
  apply (top_numbers_negative_n
           (SimpleFrequencyStrategy.calculate sample_draws) (-2)).
  lia.
Defined.

(** ** Consensus of several strategies *)

Lemma pair_ltb_asym p q :
  ResultFormatter.pair_ltb p q = true → ResultFormatter.pair_ltb q p = false.
Proof.
  unfold ResultFormatter.pair_ltb.
  destruct (Z.eqb_spec p.1 q.1) as [Heq|Hne].
  - rewrite Heq, Z.eqb_refl. apply Rltb_asym.
  - destruct (Z.eqb_spec q.1 p.1); [congruence | lia].
Qed.

Lemma pair_ltb_negtrans p q r :
  ResultFormatter.pair_ltb p q = false →
  ResultFormatter.pair_ltb q r = false →
  ResultFormatter.pair_ltb p r = false.
Proof.
  unfold ResultFormatter.pair_ltb.
  destruct (Z.eqb_spec p.1 q.1) as [Hpq|Hpq],
    (Z.eqb_spec q.1 r.1) as [Hqr|Hqr],
    (Z.eqb_spec p.1 r.1) as [Hpr|Hpr];
    try apply Rltb_negtrans; intros; try lia.
Qed.

(** An entry that stands before another in the consensus ranking has at
    least its count. *)
Lemma pair_ltb_false_count p q :
  ResultFormatter.pair_ltb p q = false → (q.1 ≤ p.1)%Z.
Proof.
  unfold ResultFormatter.pair_ltb.
  destruct (Z.eqb_spec p.1 q.1); intros; lia.
Qed.

Lemma strategy_sets_recommended (all_strategies : list (string * list Z)) :
  ⋃ (map snd
       (map (λ '(key, nums), (key, list_to_set nums : gset Z))
          all_strategies))
  = recommended all_strategies.
Proof.
  unfold recommended. f_equal. rewrite map_map. apply map_ext.
  by intros [key nums].
Qed.

Lemma strategy_sets_agreement (all_strategies : list (string * list Z)) num :
  Py.len
    (filter (λ s : gset Z, num ∈ s)
       (map snd
          (map (λ '(key, nums), (key, list_to_set nums : gset Z))
             all_strategies)))
  = agreement all_strategies num.
Proof.
  unfold agreement, Py.len. f_equal.
  induction all_strategies as [|[key nums] all_strategies IH]; [done|].
  cbn [map snd]. rewrite !filter_cons. cbn [snd].
  destruct (decide (num ∈ (list_to_set nums : gset Z))) as [Hin|Hnin],
    (decide (num ∈ nums)) as [Hin'|Hnin'];
    rewrite elem_of_list_to_set in *; try done; simpl; by rewrite IH.
Qed.

Lemma elem_of_recommended (all_strategies : list (string * list Z)) num :
  num ∈ recommended all_strategies
  ↔ ∃ key nums, (key, nums) ∈ all_strategies ∧ num ∈ nums.
Proof.
  unfold recommended. rewrite elem_of_union_list. split.
  - intros (X & HX & Hnum).
    apply list_elem_of_In, in_map_iff in HX as ([key nums] & <- & Hentry).
    apply list_elem_of_In in Hentry.
    rewrite elem_of_list_to_set in Hnum. eauto.
  - intros (key & nums & Hentry & Hnum).
    exists (list_to_set nums). split; [|by rewrite elem_of_list_to_set].
    apply list_elem_of_In, in_map_iff. exists (key, nums).
    split; [done|]. by apply list_elem_of_In.
Qed.

Section ConsensusGeneral.
Variable set_iter : gset Z → list Z.
Hypothesis set_iter_enumerates : ∀ X : gset Z, set_iter X ≡ₚ elements X.
Variable all_strategies : list (string * list Z).
Variable simple_freq : option ScoreMap.

Local Abbreviation counted :=
  (map (λ num, (num, agreement all_strategies num))
     (set_iter (recommended all_strategies))).
Local Abbreviation ranking :=
  (Py.sorted ResultFormatter.pair_ltb
     (λ x : Z * Z, (x.2, ResultFormatter.reference_score simple_freq x.1))
     true counted).
Local Abbreviation final_bet :=
  (ResultFormatter.display_consensus_analysis set_iter
     all_strategies simple_freq).

Lemma NoDup_set_iter (X : gset Z) : NoDup (set_iter X).
Proof. rewrite set_iter_enumerates. apply NoDup_elements. Qed.

Lemma elem_of_set_iter (X : gset Z) num : num ∈ set_iter X ↔ num ∈ X.
Proof. by rewrite set_iter_enumerates, elem_of_elements. Qed.

Lemma final_bet_unfold :
  final_bet
  = Py.sorted Z.ltb (λ num : Z, num) false (map fst (take 8 ranking)).
Proof.
  unfold ResultFormatter.display_consensus_analysis.
  rewrite strategy_sets_recommended.
  rewrite fold_set_fresh by (simpl; apply NoDup_set_iter).
  simpl app. rewrite slice_to_nonneg by lia.
  do 4 f_equal. apply map_ext. intros num.
  by rewrite strategy_sets_agreement.
Qed.

Lemma keys_ranking : map fst ranking ≡ₚ set_iter (recommended all_strategies).
Proof.
  rewrite sorted_Permutation, map_map. simpl. by rewrite map_id.
Qed.

Lemma ranking_entry (entry : Z * Z) :
  entry ∈ ranking → entry.2 = agreement all_strategies entry.1.
Proof.
  rewrite sorted_Permutation.
  intros (num & <- & _)%list_elem_of_In%in_map_iff. done.
Qed.

Lemma ranking_by_agreement (j : nat) (a b : Z * Z) :
  a ∈ take j ranking → b ∈ drop j ranking → (b.2 ≤ a.2)%Z.
Proof.
  intros Ha Hb.
  apply (pair_ltb_false_count
           (a.2, ResultFormatter.reference_score simple_freq a.1)
           (b.2, ResultFormatter.reference_score simple_freq b.1)).
  apply (StronglySorted_take_drop
           (λ a b : Z * Z,
              Py.moves_past ResultFormatter.pair_ltb
                (λ x : Z * Z,
                   (x.2, ResultFormatter.reference_score simple_freq x.1))
                true a b = false)
           ranking j a b); [|done..].
  apply sorted_StronglySorted;
    [apply pair_ltb_asym | apply pair_ltb_negtrans].
Qed.

Lemma NoDup_keys_ranking : NoDup (map fst ranking).
Proof. rewrite keys_ranking. apply NoDup_set_iter. Qed.

Lemma final_bet_Permutation : final_bet ≡ₚ map fst (take 8 ranking).
Proof. rewrite final_bet_unfold. apply sorted_Permutation. Qed.

Lemma elem_of_take_ranking num :
  num ∈ map fst (take 8 ranking) → num ∈ recommended all_strategies.
Proof.
  intros Hnum. apply elem_of_set_iter. rewrite <- keys_ranking.
  rewrite <- (take_drop 8 ranking), map_app, elem_of_app. by left.
Qed.

(** X17. For any strategies, the final consensus bet is in ascending order
    without repetition, holds [min(8, u)] numbers where [u] is the number
    of distinct numbers recommended, and holds only numbers that some
    strategy recommends; when [u <= 8] it holds all of them. *)
Theorem consensus_final_bet :
  StronglySorted Z.le final_bet
  ∧ NoDup final_bet
  ∧ length final_bet = Nat.min 8 (size (recommended all_strategies))
  ∧ (∀ num, num ∈ final_bet →
            ∃ key nums, (key, nums) ∈ all_strategies ∧ num ∈ nums)
  ∧ ((size (recommended all_strategies) ≤ 8)%nat →
     ∀ num, num ∈ recommended all_strategies → num ∈ final_bet).
Proof.
  assert (length ranking = size (recommended all_strategies)) as Hlen.
  { rewrite length_sorted, length_map, set_iter_enumerates. done. }
  split; [rewrite final_bet_unfold; apply sorted_numbers_ascending|].
  split.
  { rewrite final_bet_Permutation.
    apply (sublist_NoDup _ (map fst ranking)); [apply NoDup_keys_ranking|].
    rewrite <- (take_drop 8 ranking) at 2. rewrite map_app.
    apply sublist_inserts_r. done. }
  split.
  { rewrite final_bet_Permutation, length_map, length_take. lia. }
  split.
  { intros num Hnum. apply elem_of_recommended, elem_of_take_ranking.
    by rewrite <- final_bet_Permutation. }
  intros Hsize num Hnum.
  rewrite final_bet_Permutation, take_ge by lia.
  rewrite keys_ranking. by apply elem_of_set_iter.
Qed.

(** X18. The consensus prefers agreement: a number of the final bet is
    recommended by at least as many strategies as any recommended number
    that the bet leaves out. *)
Theorem consensus_prefers_agreement (kept left_out : Z) :
  kept ∈ final_bet →
  left_out ∈ recommended all_strategies →
  left_out ∉ final_bet →
  (agreement all_strategies left_out ≤ agreement all_strategies kept)%Z.
Proof.
  rewrite final_bet_Permutation. intros Hkept Hrec Hout.
  apply list_elem_of_In, in_map_iff in Hkept as (a & <- & Ha).
  apply list_elem_of_In in Ha.
  assert ((left_out, agreement all_strategies left_out) ∈ ranking) as Hb.
  { rewrite sorted_Permutation. apply list_elem_of_In, in_map_iff.
    exists left_out. split; [done|].
    by apply list_elem_of_In, elem_of_set_iter. }
  rewrite <- (take_drop 8 ranking), elem_of_app in Hb.
  destruct Hb as [Hb|Hb].
  { exfalso. apply Hout. apply list_elem_of_In, in_map_iff.
    eexists. split; [|apply list_elem_of_In, Hb]. done. }
  pose proof (ranking_by_agreement 8 a _ Ha Hb) as Hle.
  rewrite (ranking_entry a) in Hle; [done|].
  rewrite <- (take_drop 8 ranking), elem_of_app. by left.
Qed.
End ConsensusGeneral.

Lemma consensus_prefers_agreement_witness :
  (agreement nested_strategies 1 ≤ agreement nested_strategies 9)%Z.
Proof.
  apply (consensus_prefers_agreement elements
           (λ X, reflexivity (elements X)) nested_strategies None 9 1).
  - apply (bool_decide_unpack _). vm_compute. exact I.
  - apply (bool_decide_unpack _). vm_compute. exact I.
  - apply (bool_decide_unpack _). vm_compute. exact I.
Defined.

Lemma consensus_final_bet_witness :
  NoDup
    (ResultFormatter.display_consensus_analysis elements
       nested_strategies None).
Proof.
  apply (consensus_final_bet elements (λ X, reflexivity (elements X))
           nested_strategies None).
Defined.

(** ** The complete ranking of the 60 numbers *)

Lemma rank_key_ltb_asym p q :
  ResultFormatter.rank_key_ltb p q = true →
  ResultFormatter.rank_key_ltb q p = false.
Proof.
  unfold ResultFormatter.rank_key_ltb.
  destruct (Req_dec_T p.1 q.1) as [Heq|Hne], (Req_dec_T q.1 p.1) as [Heq'|Hne'];
    try congruence; [lia | apply Rltb_asym].
Qed.

Lemma rank_key_ltb_negtrans p q r :
  ResultFormatter.rank_key_ltb p q = false →
  ResultFormatter.rank_key_ltb q r = false →
  ResultFormatter.rank_key_ltb p r = false.
Proof.
  unfold ResultFormatter.rank_key_ltb.
  destruct (Req_dec_T p.1 q.1) as [Hpq|Hpq],
    (Req_dec_T q.1 r.1) as [Hqr|Hqr],
    (Req_dec_T p.1 r.1) as [Hpr|Hpr];
    rewrite ?Rltb_false; intros H1 H2; try lia; try congruence; lra.
Qed.

(** Entries with distinct numbers in the order of [(-score, number)]. *)
Lemma rank_key_order (a b : Z * R) :
  a.1 ≠ b.1 →
  ResultFormatter.rank_key_ltb ((- b.2)%R, b.1) ((- a.2)%R, a.1) = false →
  (b.2 < a.2)%R ∨ (b.2 = a.2 ∧ (a.1 < b.1)%Z).
Proof.
  unfold ResultFormatter.rank_key_ltb. simpl. intros Hne.
  destruct (Req_dec_T (- b.2) (- a.2)) as [Heq|Hneq].
  - intros Hlt. right. split; [lra | lia].
  - rewrite Rltb_false. intros Hle. left.
    destruct (Rle_lt_or_eq_dec _ _ Hle) as [?|Heq]; [lra|].
    exfalso. apply Hneq. lra.
Qed.

Lemma StronglySorted_distinct {A : Type} (R : A → A → Prop) (f : A → Z)
    (l : list A) :
  StronglySorted R l → NoDup (map f l) →
  StronglySorted (λ a b, f a ≠ f b ∧ R a b) l.
Proof.
  induction 1 as [|x l Hl IH Hx]; intros Hnodup; [constructor|].
  apply NoDup_cons in Hnodup as [Hnotin Hnodup].
  constructor; [by apply IH|].
  rewrite Forall_forall in Hx. apply Forall_forall. intros y Hy.
  split; [|by apply Hx].
  intros Heq. apply Hnotin. rewrite Heq.
  apply list_elem_of_In, in_map, list_elem_of_In, Hy.
Qed.

Lemma all_numbers_list_Permutation (frequencies : ScoreMap) :
  ResultFormatter.all_numbers_list frequencies
  ≡ₚ map (λ num, (num, default 0%R (Py.get num frequencies))) (seqZ 1 60).
Proof. apply sorted_Permutation. Qed.

(** X19. The complete ranking lists each of the numbers 1 to 60 once, with
    its score or 0 when the map has none; it is in descending order of
    score and, among equal scores, in ascending order of number; and it is
    the same for two score maps that give the numbers 1 to 60 the same
    scores, whatever the order of their entries. *)
Theorem complete_ranking (frequencies : ScoreMap) :
  length (ResultFormatter.all_numbers_list frequencies) = 60%nat
  ∧ ResultFormatter.all_numbers_list frequencies
    ≡ₚ map (λ num, (num, default 0%R (Py.get num frequencies))) (seqZ 1 60)
  ∧ StronglySorted
      (λ a b, (b.2 < a.2)%R ∨ (b.2 = a.2 ∧ (a.1 < b.1)%Z))
      (ResultFormatter.all_numbers_list frequencies)
  ∧ ∀ frequencies' : ScoreMap,
      (∀ num, (1 ≤ num ≤ 60)%Z →
              default 0%R (Py.get num frequencies)
              = default 0%R (Py.get num frequencies')) →
      ResultFormatter.all_numbers_list frequencies
      = ResultFormatter.all_numbers_list frequencies'.
Proof.
  split; [by rewrite all_numbers_list_Permutation, length_map|].
  split; [apply all_numbers_list_Permutation|]. split.
  - assert (StronglySorted
              (λ a b : Z * R,
                 Py.moves_past ResultFormatter.rank_key_ltb
                   (λ x : Z * R, ((- x.2)%R, x.1)) false a b = false)
              (ResultFormatter.all_numbers_list frequencies)) as Hsorted
      by (apply sorted_StronglySorted;
          [apply rank_key_ltb_asym | apply rank_key_ltb_negtrans]).
    assert (NoDup (map fst (ResultFormatter.all_numbers_list frequencies)))
      as Hnodup.
    { rewrite all_numbers_list_Permutation, map_map.
      rewrite (map_ext _ (λ num : Z, num)) by done.
      rewrite map_id. apply NoDup_seqZ. }
    pose proof (StronglySorted_distinct _ fst _ Hsorted Hnodup) as Hstrict.
    eapply StronglySorted_weaken; [|exact Hstrict].
    intros a b [Hne Horder]. by apply rank_key_order.
  - intros frequencies' Hsame. unfold ResultFormatter.all_numbers_list.
    f_equal. apply map_ext_in. intros num Hnum%list_elem_of_In.
    rewrite elem_of_seqZ in Hnum. rewrite Hsame; [done | lia].
Qed.

(** ** The text of a list of numbers *)

Example format_numbers_unsorted :
  ResultFormatter.format_numbers_list [42; 5; 33; 10]%Z = "05 - 10 - 33 - 42".
Proof. vm_compute. reflexivity. Qed.

(** X20. [format_numbers_list] does not depend on the order of the numbers
    it is given. *)
Theorem format_numbers_list_any_order (numbers numbers' : list Z) :
  numbers ≡ₚ numbers' →
  ResultFormatter.format_numbers_list numbers
  = ResultFormatter.format_numbers_list numbers'.
Proof.
  intros Hperm. unfold ResultFormatter.format_numbers_list.
  by rewrite (sorted_numbers_Permutation numbers numbers').
Qed.

Lemma format_numbers_list_any_order_witness :
  ResultFormatter.format_numbers_list [42; 5; 33; 10]%Z
  = ResultFormatter.format_numbers_list [5; 10; 33; 42]%Z.
Proof.
  apply (format_numbers_list_any_order [42; 5; 33; 10]%Z [5; 10; 33; 42]%Z).
  apply (bool_decide_unpack _). vm_compute. exact I.
Defined.

Lemma string_length_app (s1 s2 : string) :
  String.length (s1 +:+ s2) = (String.length s1 + String.length s2)%nat.
Proof. induction s1 as [|c s1 IH]; simpl; [done|]. by rewrite IH. Qed.

Lemma format_02d_width (n : Z) :
  (0 ≤ n ≤ 99)%Z → String.length (Py.format_02d n) = 2%nat.
Proof.
  intros Hn.
  assert (forallb (λ n, String.length (Py.format_02d n) =? 2)%nat
            (seqZ 0 100) = true) as Hall by (vm_compute; reflexivity).
  rewrite forallb_forall in Hall.
  apply Nat.eqb_eq, Hall, list_elem_of_In, elem_of_seqZ. lia.
Qed.

Lemma concat_width (pieces : list string) :
  Forall (λ piece, String.length piece = 2%nat) pieces →
  pieces ≠ [] →
  String.length (String.concat " - " pieces) = (5 * length pieces - 3)%nat.
Proof.
  induction 1 as [|piece pieces Hpiece Hpieces IH]; intros Hne; [done|].
  destruct pieces as [|piece' pieces]; simpl; [done|].
  rewrite !string_length_app, Hpiece.
  change (String.length " - ") with 3%nat.
  simpl in IH. rewrite IH by done. simpl length. lia.
Qed.

(** X21. For numbers from 0 to 99, as those of the lottery are,
    [format_numbers_list] writes two characters per number and three per
    separator: the text of [n >= 1] numbers has [5 * n - 3] characters; the
    text of no number is empty. *)
Theorem format_numbers_list_width (numbers : list Z) :
  Forall (λ n, (0 ≤ n ≤ 99)%Z) numbers →
  ResultFormatter.format_numbers_list [] = EmptyString
  ∧ (numbers ≠ [] →
     String.length (ResultFormatter.format_numbers_list numbers)
     = (5 * length numbers - 3)%nat).
Proof.
  intros Hrange. split; [done|]. intros Hne.
  unfold ResultFormatter.format_numbers_list.
  pose proof (sorted_Permutation Z.ltb (λ num : Z, num) false numbers)
    as Hperm.
  rewrite concat_width.
  - by rewrite length_map, Hperm.
  - apply Forall_map. rewrite Hperm.
    eapply Forall_impl; [exact Hrange|]. intros n Hn. by apply format_02d_width.
  - intros Hnil%map_eq_nil. rewrite Hnil in Hperm.
    by apply Permutation_nil in Hperm.
Qed.

Lemma format_numbers_list_width_witness :
  String.length (ResultFormatter.format_numbers_list [42; 5; 33; 10]%Z)
  = (5 * 4 - 3)%nat.
Proof.
  apply (format_numbers_list_width [42; 5; 33; 10]%Z).
  - repeat constructor; lia.
  - discriminate.
Defined.

(** ** The registry of strategies *)

Section StrDictFacts.
Context {V : Type}.
Implicit Types (d : list (string * V)) (key : string) (v : V).

Lemma getitem_setitem key key' v d :
  Py.getitem key' (Py.setitem key v d)
  = if String.eqb key' key then Some v else Py.getitem key' d.
Proof.
  induction d as [|[k0 v0] d IH]; simpl; [done|].
  destruct (String.eqb_spec key k0) as [->|Hne]; simpl.
  - by destruct (String.eqb key' k0).
  - rewrite IH.
    destruct (String.eqb_spec key' k0) as [->|_]; [|done].
    by destruct (String.eqb_spec k0 key) as [->|_].
Qed.

Lemma setitem_fresh key v d :
  key ∉ map fst d → Py.setitem key v d = d ++ [(key, v)].
Proof.
  induction d as [|[k0 v0] d IH]; simpl; [done|].
  rewrite not_elem_of_cons. intros [Hne Hnin].
  destruct (String.eqb_spec key k0) as [->|_]; [done|]. by rewrite IH.
Qed.

Lemma setitem_present key v d :
  key ∈ map fst d → map fst (Py.setitem key v d) = map fst d.
Proof.
  induction d as [|[k0 v0] d IH]; simpl.
  - by intros ?%elem_of_nil.
  - destruct (String.eqb_spec key k0) as [->|Hne]; [done|].
    intros [?|Hin]%elem_of_cons; [done|]. simpl. by rewrite IH.
Qed.

Lemma getitem_elem_of key v d :
  NoDup (map fst d) → (key, v) ∈ d → Py.getitem key d = Some v.
Proof.
  induction d as [|[k0 v0] d IH]; simpl.
  - by intros _ ?%elem_of_nil.
  - intros [Hnotin Hnodup]%NoDup_cons [[= -> ->]|Hin]%elem_of_cons.
    + by rewrite String.eqb_refl.
    + destruct (String.eqb_spec key k0) as [->|_]; [|by apply IH].
      exfalso. apply Hnotin.
      apply list_elem_of_In, in_map_iff. exists (k0, v).
      split; [done|]. by apply list_elem_of_In.
Qed.
End StrDictFacts.

(** X22. [add_strategy] registers a strategy under its key and leaves the
    other keys as they are: a key that is new goes last, a key that is
    taken keeps its place and gets the new strategy, so keys stay
    distinct. *)
Theorem add_strategy_registers {S : Type}
    (strategies : list (string * S)) (key key' : string) (s : S) :
  Py.getitem key' (FrequencyCalculator.add_strategy strategies key s)
  = (if String.eqb key' key then Some s else Py.getitem key' strategies)
  ∧ (key ∉ map fst strategies →
     FrequencyCalculator.add_strategy strategies key s
     = strategies ++ [(key, s)])
  ∧ (key ∈ map fst strategies →
     map fst (FrequencyCalculator.add_strategy strategies key s)
     = map fst strategies)
  ∧ (NoDup (map fst strategies) →
     NoDup (map fst (FrequencyCalculator.add_strategy strategies key s))).
Proof.
  unfold FrequencyCalculator.add_strategy.
  split; [apply getitem_setitem|].
  split; [apply setitem_fresh|].
  split; [apply setitem_present|].
  intros Hnodup. destruct (decide (key ∈ map fst strategies)) as [Hin|Hnin].
  - by rewrite setitem_present.
  - rewrite setitem_fresh, map_app by done. simpl.
    apply NoDup_app. split; [done|]. split; [|apply NoDup_singleton].
    by intros k Hk ->%list_elem_of_singleton.
Qed.

Lemma add_strategy_registers_witness :
  FrequencyCalculator.add_strategy
    [("simple", Simple)] "recent_5"
    (RecentOnly
       {| RecentOnlyStrategy.n_items := 5;
          RecentOnlyStrategy.mode := "draws" |})
  = [("simple", Simple)]
    ++ [("recent_5",
         RecentOnly
           {| RecentOnlyStrategy.n_items := 5;
              RecentOnlyStrategy.mode := "draws" |})].
Proof.
  apply (add_strategy_registers [("simple", Simple)] "recent_5" "recent_5").
  apply (bool_decide_unpack _). vm_compute. exact I.
Defined.

Section CalculatorFacts.
Context {S V : Type} `{!FrequencyCalculator.FrequencyStrategy S V}.
Implicit Types (strategies : list (string * S)).
Implicit Types (results : list (string * list (Z * V))).

Lemma calculate_all_from_results results strategies (draws : list Row) :
  NoDup (map fst results ++ map fst strategies) →
  Forall
    (λ entry, ∃ scores, FrequencyCalculator.calculate entry.2 draws = Ok scores)
    strategies →
  ∃ new,
    FrequencyCalculator.calculate_all_from results strategies draws
    = Ok (results ++ new)
    ∧ Forall2
        (λ entry result,
           result.1 = entry.1
           ∧ FrequencyCalculator.calculate entry.2 draws = Ok result.2)
        strategies new.
Proof.
  revert results.
  induction strategies as [|[key s] strategies IH]; intros results Hnodup Hall.
  - exists []. rewrite app_nil_r. by split; [|constructor].
  - apply Forall_cons in Hall as [[scores Hscores] Hall]. simpl in Hscores.
    cbn [FrequencyCalculator.calculate_all_from]. rewrite Hscores.
    unfold mbind, Py.result_bind.
    assert (key ∉ map fst results) as Hfresh.
    { apply NoDup_app in Hnodup as (_ & Hdisj & _).
      intros Hin. apply (Hdisj key Hin). left. }
    rewrite setitem_fresh by done.
    destruct (IH (results ++ [(key, scores)])) as (new & Hnew & Hforall).
    + rewrite map_app. simpl. by rewrite <- app_assoc.
    + done.
    + exists ((key, scores) :: new). rewrite Hnew, <- app_assoc.
      split; [done|]. by constructor.
Qed.

Lemma results_keys strategies results (draws : list Row) :
  Forall2
    (λ entry result,
       result.1 = entry.1
       ∧ FrequencyCalculator.calculate entry.2 draws = Ok result.2)
    strategies results →
  map fst results = map fst strategies.
Proof.
  induction 1 as [|[key s] [key' scores] ?? [Hkey _] _ IH]; simpl in *;
    [done|]. by rewrite Hkey, IH.
Qed.

Lemma results_entry strategies results (draws : list Row)
    (key : string) (s : S) :
  Forall2
    (λ entry result,
       result.1 = entry.1
       ∧ FrequencyCalculator.calculate entry.2 draws = Ok result.2)
    strategies results →
  (key, s) ∈ strategies →
  ∃ scores,
    (key, scores) ∈ results
    ∧ FrequencyCalculator.calculate s draws = Ok scores.
Proof.
  induction 1 as [|[key0 s0] [key' scores] ?? [Hkey Hscores] _ IH];
    simpl in *.
  - by intros ?%elem_of_nil.
  - intros [[= -> ->]|Hin]%elem_of_cons.
    + exists scores. subst key'. split; [left | done].
    + destruct (IH Hin) as (scores' & Hin' & Hscores').
      exists scores'. split; [by right | done].
Qed.

Lemma calculate_all_from_raises results strategies (draws : list Row)
    (key : string) (s : S) (e : Py.exn) :
  (key, s) ∈ strategies →
  FrequencyCalculator.calculate s draws = Raise e →
  ∃ e', FrequencyCalculator.calculate_all_from results strategies draws
        = Raise e'.
Proof.
  intros Hin Hraise. revert results.
  induction strategies as [|[key0 s0] strategies IH]; intros results.
  - by apply elem_of_nil in Hin.
  - cbn [FrequencyCalculator.calculate_all_from].
    destruct (FrequencyCalculator.calculate s0 draws) as [scores|e0] eqn:Hs0.
    + unfold mbind, Py.result_bind.
      apply elem_of_cons in Hin as [[= -> ->]|Hin]; [congruence|].
      by apply IH.
    + by exists e0.
Qed.

(** X23. When the keys of the registry are distinct and the [calculate] of
    every registered strategy returns, [calculate_all] returns one score map
    per strategy, under the strategy's key and in registration order, each
    the result of that strategy's [calculate]. *)
Theorem calculate_all_results strategies (draws : list Row) :
  NoDup (map fst strategies) →
  Forall
    (λ entry, ∃ scores, FrequencyCalculator.calculate entry.2 draws = Ok scores)
    strategies →
  ∃ results,
    FrequencyCalculator.calculate_all strategies draws = Ok results
    ∧ map fst results = map fst strategies
    ∧ ∀ key s,
        (key, s) ∈ strategies →
        ∃ scores,
          Py.getitem key results = Some scores
          ∧ FrequencyCalculator.calculate s draws = Ok scores.
Proof.
  intros Hnodup Hall.
  destruct (calculate_all_from_results [] strategies draws Hnodup Hall)
    as (results & Hresults & Hforall).
  pose proof (results_keys _ _ _ Hforall) as Hkeys.
  exists results. split; [done|]. split; [done|].
  intros key s Hin.
  destruct (results_entry _ _ _ key s Hforall Hin) as (scores & Hin' & Hs).
  exists scores. split; [|done].
  apply getitem_elem_of; [by rewrite Hkeys | done].
Qed.

(** X24. [calculate_all] has no partial result: when the [calculate] of
    one registered strategy raises, [calculate_all] raises too and returns
    no score map at all. *)
Theorem calculate_all_raises strategies (draws : list Row)
    (key : string) (s : S) (e : Py.exn) :
  (key, s) ∈ strategies →
  FrequencyCalculator.calculate s draws = Raise e →
  ∃ e', FrequencyCalculator.calculate_all strategies draws = Raise e'.
Proof. apply calculate_all_from_raises. Qed.

End CalculatorFacts.

Lemma calculate_all_results_witness :
  ∃ results,
    FrequencyCalculator.calculate_all
      [("simple", Simple);
       ("recent_5",
        RecentOnly
          {| RecentOnlyStrategy.n_items := 5;
             RecentOnlyStrategy.mode := "draws" |})]
      sample_draws
    = Ok results
    ∧ map fst results = ["simple"; "recent_5"].
Proof.
  destruct (calculate_all_results
              [("simple", Simple);
               ("recent_5",
                RecentOnly
                  {| RecentOnlyStrategy.n_items := 5;
                     RecentOnlyStrategy.mode := "draws" |})]
              sample_draws) as (results & Hresults & Hkeys & _).
  - apply (bool_decide_unpack _). vm_compute. exact I.
  - repeat constructor; simpl; eexists.
    + reflexivity.
    + apply calculate_draws_mode.
  - exists results. split; [exact Hresults | exact Hkeys].
Defined.

Lemma calculate_all_raises_witness :
  ∃ e',
    FrequencyCalculator.calculate_all
      [("simple", Simple);
       ("last_year",
        RecentOnly
          {| RecentOnlyStrategy.n_items := 1;
             RecentOnlyStrategy.mode := "years" |})]
      undated_draws
    = Raise e'.
Proof.
  apply (calculate_all_raises
           [("simple", Simple);
            ("last_year",
             RecentOnly
               {| RecentOnlyStrategy.n_items := 1;
                  RecentOnlyStrategy.mode := "years" |})]
           undated_draws "last_year"
           (RecentOnly
              {| RecentOnlyStrategy.n_items := 1;
                 RecentOnlyStrategy.mode := "years" |})
           ValueError).
  - right. left.
  - vm_compute. reflexivity.
Defined.

(** A registered Weighted strategy whose [math.exp] overflows makes
    [calculate_all] raise [OverflowError]. *)
Example calculate_all_overflow (math_exp : float → Py.result float) :
  math_exp 0%float = Ok 1%float →
  math_exp 1000%float = Raise OverflowError →
  @FrequencyCalculator.calculate_all _ _ (weighted_strategy_calculate math_exp)
    [("recent_more",
      {| Binary64.weight_mode := "recent_more";
         Binary64.decay_factor := 1000 |})]
    sample_draws
  = Raise OverflowError.
Proof.
  intros Hzero Hraise.
  unfold FrequencyCalculator.calculate_all.
  cbn [FrequencyCalculator.calculate_all_from].
  unfold FrequencyCalculator.calculate, weighted_strategy_calculate.
  by rewrite weighted_sample_overflow.
Qed.

(** ** The sum of the Weighted scores, in exact arithmetic *)

Lemma sum_cons (x : R) (l : list R) : Py.sum (x :: l) = (x + Py.sum l)%R.
Proof. unfold Py.sum. simpl. rewrite fold_left_Rplus. lra. Qed.

Lemma sum_add_to k weight (scores : ScoreMap) :
  Py.sum (map snd (Py.add_to 0%R Rplus k weight scores))
  = (Py.sum (map snd scores) + weight)%R.
Proof.
  unfold Py.add_to. induction scores as [|[k0 v0] scores IH].
  - cbn. unfold Py.sum. simpl. lra.
  - cbn [Py.set Py.get]. destruct (Z.eqb_spec k k0) as [->|Hne].
    + cbn [map snd]. rewrite !sum_cons. simpl. lra.
    + cbn [map snd]. rewrite !sum_cons, IH. lra.
Qed.

Lemma sum_add_numbers weight (numbers : list Z) (scores : ScoreMap) :
  Py.sum
    (map snd
       (fold_left (λ scores number, Py.add_to 0%R Rplus number weight scores)
          numbers scores))
  = (Py.sum (map snd scores) + weight * IZR (Py.len numbers))%R.
Proof.
  revert scores.
  induction numbers as [|n numbers IH]; intros scores.
  - simpl. change (Py.len []) with 0%Z. lra.
  - cbn [fold_left]. rewrite IH, sum_add_to, len_cons, plus_IZR. lra.
Qed.

Lemma len_extract_numbers (row : Row) :
  Py.len (MegaSenaDataLoader.extract_numbers row) = parsed_in_row row.
Proof. rewrite extract_numbers_omap. apply length_omap_ball. Qed.

Lemma sum_weighted_fold self total_draws draws (i : Z) (scores : ScoreMap) :
  Py.sum
    (map snd
       (fold_left
          (λ weighted_scores '(draw_index, row),
             let weight :=
               WeightedFrequencyStrategy._calculate_weight self
                 (WeightedFrequencyStrategy.position total_draws draw_index) in
             WeightedFrequencyStrategy.add_row weight weighted_scores row)
          (Py.enumerate_from i draws) scores))
  = (Py.sum (map snd scores)
     + weighted_cells
         (λ j, WeightedFrequencyStrategy._calculate_weight self
                 (WeightedFrequencyStrategy.position total_draws j))
         i draws)%R.
Proof.
  revert i scores.
  induction draws as [|row draws IH]; intros i scores; simpl; [lra|].
  rewrite IH, add_row_numbers, sum_add_numbers, len_extract_numbers. lra.
Qed.

(** X25. In exact arithmetic the Weighted scores add up to the sum, over
    the draws, of the weight of the draw's position times the number of its
    readable ball cells. *)
Theorem weighted_scores_sum
    (self : WeightedFrequencyStrategy.t) (draws : list Row) :
  Py.sum (map snd (WeightedFrequencyStrategy.calculate self draws))
  = weighted_cells
      (λ i, WeightedFrequencyStrategy._calculate_weight self
              (WeightedFrequencyStrategy.position (Py.len draws) i))
      0 draws.
Proof.
  unfold WeightedFrequencyStrategy.calculate, Py.enumerate.
  rewrite sum_weighted_fold. unfold Py.sum. simpl. lra.
Qed.

(** ** The pattern lists *)






Example pattern_lists_sample :
  ResultFormatter.pattern_lists sample_draws
  = ([210; 105; 195], [(6, 0); (3, 3); (3, 3)], [(3, 3); (6, 0); (3, 3)])%Z.
Proof. vm_compute. reflexivity. Qed.
